(** * Startup and supervision kernel of the server ([app.js])

    A shallow embedding of the main file of the server: the dependency
    check, the configuration load and hot reload, the set-up of the global
    subsystems, the crash handlers and the exit diagnostics.  The script is
    embedded as a program in a state-and-exception monad over a [world]
    that holds what the script reads and writes: the file system, the
    resolvable packages, [require.cache], the bindings of [global], the
    listeners of [process] and the log of observable effects. *)

From Stdlib Require Import ZArith Lia.
From stdpp Require Import base strings gmap list pretty.

Local Open Scope Z_scope.

(** ** Values of the script *)

(** A JavaScript [Error]: the [code] property the script tests and the
    [stack] text it logs.  What is thrown is an [Error] object throughout:
    a thrown [null] or [undefined], of which no property can be read, is
    not modelled. *)
Record error := Error { err_code : string; err_stack : string }.

Global Instance error_eq_dec : EqDecision error := ltac:(solve_decision).

(** The object exported by [config/config.js].  The script reads three
    options, by truthiness; the remaining options are kept as they are. *)
Record config := Config {
  watchconfig : bool;
  crashguard : bool;
  remoteladder : bool;
  options : list (string * string)
}.

Global Instance config_eq_dec : EqDecision config := ltac:(solve_decision).

(** What a global of the script is bound to. *)
Inductive value :=
  | VConfig (c : config)              (* the exports of config/config.js *)
  | VModule (name : string)           (* the exports of another module *)
  | VMember (name field : string)    (* a property of a module: Tools.getId *)
  | VApply (name arg : string)        (* require('origindb')('config/db') *)
  | VObject.                          (* the literal {} *)

Global Instance value_eq_dec : EqDecision value := ltac:(solve_decision).

(** An argument of [Sockets.listen]. *)
Inductive jsarg :=
  | Undefined
  | ParseInt (s : string)             (* parseInt(process.argv[2]) *)
  | Given (v : string).

Global Instance jsarg_eq_dec : EqDecision jsarg := ltac:(solve_decision).

(** Calls that leave the script: methods of subsystems and of the platform. *)
Inductive call :=
  | SpawnSync (cmd : string) (args : list string)
  | WatchFile (path : string)
  | OpenDb (dir : string)
  | VerifierSpawn
  | DnsblLoadDatacenters
  | ProcessOn (name : string)
  | SocketsListen (port bindAddress workerCount : jsarg)
  | ToolsIncludeFormats
  | TeamValidatorSpawn
  | ReplStart (name : string)
  | CacheGroupData
  | CrashLogger (err : error) (description : string)
  | StartLockdown (err : error)
  | ReportCrash (err : error)
  | ReadFileSync (path : string)
  | WriteFileSync (path : string).

Global Instance call_eq_dec : EqDecision call := ltac:(solve_decision).

(** The observable effects, in the order in which they happen. *)
Inductive event :=
  | ELog (line : string)              (* console.log *)
  | EError (line : string)            (* console.error *)
  | ERequire (name : string)          (* require(name) of a subsystem *)
  | EWriteFile (path : string)        (* fs.writeFileSync *)
  | ECall (c : call).

Global Instance event_eq_dec : EqDecision event := ltac:(solve_decision).

(** [fs.Stats], of which the script reads the modification time. *)
Record stats := Stats { mtime : Z }.

(** ** The world of the script *)

Record world := World {
  files : gmap string string;         (* path to contents *)
  packages : gset string;             (* packages that resolve *)
  require_cache : gmap string value;  (* require.cache *)
  globals : gmap string value;        (* the properties of global *)
  listeners : list string;            (* process.on registrations *)
  watched : list string;              (* fs.watchFile registrations *)
  exports_listen : bool;              (* exports.listen is defined *)
  process_send : bool;                (* process.send is defined *)
  trace : list event
}.

Definition set_files (f : gmap string string → gmap string string) (w : world) : world :=
  World (f (files w)) (packages w) (require_cache w) (globals w)
        (listeners w) (watched w) (exports_listen w) (process_send w) (trace w).

Definition set_packages (f : gset string → gset string) (w : world) : world :=
  World (files w) (f (packages w)) (require_cache w) (globals w)
        (listeners w) (watched w) (exports_listen w) (process_send w) (trace w).

Definition set_require_cache (f : gmap string value → gmap string value) (w : world) : world :=
  World (files w) (packages w) (f (require_cache w)) (globals w)
        (listeners w) (watched w) (exports_listen w) (process_send w) (trace w).

Definition set_globals (f : gmap string value → gmap string value) (w : world) : world :=
  World (files w) (packages w) (require_cache w) (f (globals w))
        (listeners w) (watched w) (exports_listen w) (process_send w) (trace w).

Definition set_listeners (f : list string → list string) (w : world) : world :=
  World (files w) (packages w) (require_cache w) (globals w)
        (f (listeners w)) (watched w) (exports_listen w) (process_send w) (trace w).

Definition set_watched (f : list string → list string) (w : world) : world :=
  World (files w) (packages w) (require_cache w) (globals w)
        (listeners w) (f (watched w)) (exports_listen w) (process_send w) (trace w).

Definition set_exports_listen (b : bool) (w : world) : world :=
  World (files w) (packages w) (require_cache w) (globals w)
        (listeners w) (watched w) b (process_send w) (trace w).

Definition set_process_send (b : bool) (w : world) : world :=
  World (files w) (packages w) (require_cache w) (globals w)
        (listeners w) (watched w) (exports_listen w) b (trace w).

Definition emit (e : event) (w : world) : world :=
  World (files w) (packages w) (require_cache w) (globals w)
        (listeners w) (watched w) (exports_listen w) (process_send w)
        (trace w ++ [e]).

(** The world of a process that has not run the script yet. *)
Definition fresh (fs : gmap string string) (pkgs : gset string) : world :=
  World fs pkgs ∅ ∅ [] [] false true [].

(** ** The monad of the script: state and exceptions

    A thrown exception keeps the effects that happened before it. *)

Inductive result (A : Type) :=
  | Ok (a : A)
  | Throw (e : error).
Arguments Ok {A} a.
Arguments Throw {A} e.

Definition M (A : Type) : Type := world → result A * world.

Definition run {A} (m : M A) (w : world) : result A * world := m w.

Definition ret {A} (a : A) : M A := λ w, (Ok a, w).

Definition bind {A B} (m : M A) (k : A → M B) : M B :=
  λ w, match m w with
       | (Ok a, w') => k a w'
       | (Throw e, w') => (Throw e, w')
       end.

Definition throw {A} (e : error) : M A := λ w, (Throw e, w).

Definition modify (f : world → world) : M unit := λ w, (Ok tt, f w).

Definition gets {A} (f : world → A) : M A := λ w, (Ok (f w), w).

Global Instance M_ret : MRet M := @ret.
Global Instance M_bind : MBind M := λ A B k m, bind m k.

(** [try { body } catch (e) { handler }] *)
Definition try_catch {A} (body : M A) (handler : error → M A) : M A :=
  λ w, match body w with
       | (Ok a, w') => (Ok a, w')
       | (Throw e, w') => handler e w'
       end.

(** [try { body } finally { fin }]: [fin] runs whatever [body] did, and an
    exception of [fin] replaces the outcome of [body]. *)
Definition try_finally {A} (body : M A) (fin : M unit) : M A :=
  λ w, match body w with
       | (r, w') =>
           match fin w' with
           | (Ok _, w'') => (r, w'')
           | (Throw e, w'') => (Throw e, w'')
           end
       end.

Definition when (b : bool) (m : M unit) : M unit := if b then m else ret tt.

(** ** The platform *)

(** What the script does not decide: how it was started, what evaluating a
    configuration text gives, which modules and calls fail, what the
    package installation achieves and how the crash logger classifies. *)
Record Env := {
  is_main : bool;                               (* require.main === module *)
  argv2 : option string;                        (* process.argv[2] *)
  resolve_fault : string → option error;        (* a resolver failure other
                                                   than an absent target *)
  eval_config : string → error + config;        (* evaluating a config text *)
  module_fault : string → option error;         (* a module that throws when
                                                   it is first evaluated *)
  call_fault : call → option error;             (* a call that throws, of a
                                                   subsystem or of [fs] *)
  npm_install : gset string → gset string;      (* what the install achieves *)
  crashlogger : error → string → string         (* the crash type returned *)
}.

Definition MODULE_NOT_FOUND : string := "MODULE_NOT_FOUND".
Definition ENOENT : string := "ENOENT".

Definition module_not_found (request : string) : error :=
  Error MODULE_NOT_FOUND ("Error: Cannot find module '" +:+ request +:+ "'").

Definition no_such_file (path : string) : error :=
  Error ENOENT ("Error: ENOENT: no such file or directory, open '" +:+ path +:+ "'").

Definition reference_error (name : string) : error :=
  Error "" ("ReferenceError: " +:+ name +:+ " is not defined").

Definition type_error (what : string) : error :=
  Error "" ("TypeError: " +:+ what).

(** The file that ['./config/config'] resolves to, and its template. *)
Definition config_request : string := "./config/config".
Definition config_path : string := "config/config.js".
Definition example_path : string := "config/config-example.js".

Section Script.

Context (E : Env).

Definition console_log (line : string) : M unit := modify (emit (ELog line)).
Definition console_error (line : string) : M unit := modify (emit (EError line)).

(** A call that leaves the script: recorded, then it returns or throws. *)
Definition extern (c : call) : M unit :=
  modify (emit (ECall c));;
  match call_fault E c with
  | Some e => throw e
  | None => ret tt
  end.

(** [require.resolve] of a package name. *)
Definition resolve_package (name : string) : M string :=
  match resolve_fault E name with
  | Some e => throw e
  | None =>
      pkgs ← gets packages;
      if decide (name ∈ pkgs) then ret name else throw (module_not_found name)
  end.

(** [require.resolve('./config/config')] *)
Definition resolve_config : M string :=
  match resolve_fault E config_request with
  | Some e => throw e
  | None =>
      fs ← gets files;
      match fs !! config_path with
      | Some _ => ret config_path
      | None => throw (module_not_found config_request)
      end
  end.

(** [require('./config/config')]: the cached exports when there are some,
    else the file is read and evaluated, and cached when that succeeds. *)
Definition require_config : M value :=
  p ← resolve_config;
  cache ← gets require_cache;
  match cache !! p with
  | Some v => ret v
  | None =>
      fs ← gets files;
      match fs !! p with
      | None => throw (module_not_found config_request)
      | Some text =>
          match eval_config E text with
          | inl e => throw e
          | inr c =>
              modify (set_require_cache <[p := VConfig c]>);;
              ret (VConfig c)
          end
      end
  end.

(** [require(name)] of a subsystem. *)
Definition require_module (name : string) : M value :=
  modify (emit (ERequire name));;
  cache ← gets require_cache;
  match cache !! name with
  | Some v => ret v
  | None =>
      match module_fault E name with
      | Some e => throw e
      | None =>
          modify (set_require_cache <[name := VModule name]>);;
          ret (VModule name)
      end
  end.

(** [fs.readFileSync(path)]: an absent file is ENOENT; a file that is
    there can fail to be read for another reason. *)
Definition fs_readFileSync (path : string) : M string :=
  fs ← gets files;
  match fs !! path with
  | None => throw (no_such_file path)
  | Some text =>
      match call_fault E (ReadFileSync path) with
      | Some e => throw e
      | None => ret text
      end
  end.

(** [fs.writeFileSync(path, text)]: the file is written, or the call throws
    and nothing is. *)
Definition fs_writeFileSync (path text : string) : M unit :=
  modify (emit (EWriteFile path));;
  match call_fault E (WriteFileSync path) with
  | Some e => throw e
  | None => modify (set_files <[path := text]>)
  end.

Definition set_global (name : string) (v : value) : M unit :=
  modify (set_globals <[name := v]>).

(** Reading the global [Config]. *)
Definition get_Config : M config :=
  g ← gets globals;
  match g !! "Config" with
  | Some (VConfig c) => ret c
  | Some _ => throw (type_error "Config is not a configuration")
  | None => throw (reference_error "Config")
  end.

(** *** Lines 55-63: the dependencies *)

Definition install_command : string := "npm install --production".

Definition check_dependencies : M unit :=
  try_catch
    (_ ← resolve_package "sockjs"; ret tt)
    (λ e,
      if negb (is_main E) then throw (Error "" "Error: Dependencies unmet")
      else
        console_log ("Installing dependencies: `" +:+ install_command +:+ "`...");;
        extern (SpawnSync "sh" ["-c"; install_command]);;
        modify (set_packages (npm_install E))).

(** *** Lines 69-81: the configuration *)

Definition load_config : M unit :=
  try_finally
    (try_catch
       (_ ← resolve_config; ret tt)
       (λ err,
         if negb (String.eqb (err_code err) MODULE_NOT_FOUND) then throw err
         else
           console_log "config.js doesn't exist - creating one with default settings...";;
           text ← fs_readFileSync example_path;
           fs_writeFileSync config_path text))
    (v ← require_config; set_global "Config" v).

(** *** Lines 83-96: the hot reload *)

(** The listener given to [fs.watchFile]; what it catches is an [Error]
    object, of which it reads [stack]. *)
Definition on_config_change (configPath : string) (curr prev : stats) : M unit :=
  if mtime curr <=? mtime prev then ret tt
  else
    try_catch
      (modify (set_require_cache (delete configPath));;
       v ← require_config;
       set_global "Config" v;;
       g ← gets globals;
       when (bool_decide (is_Some (g !! "Users"))) (extern CacheGroupData);;
       console_log "Reloaded config/config.js")
      (λ e, console_log ("Error reloading config/config.js: " +:+ err_stack e)).

Definition watch_config : M unit :=
  c ← get_Config;
  when (watchconfig c)
    (configPath ← resolve_config;
     extern (WatchFile configPath);;
     modify (set_watched (λ l, l ++ [configPath]))).

(** *** Lines 102-134: the globals *)

Definition get_global (name : string) : M value :=
  g ← gets globals;
  match g !! name with
  | Some v => ret v
  | None => throw (reference_error name)
  end.

(** [global.name = require(request)] *)
Definition define_global (name request : string) : M unit :=
  v ← require_module request;
  set_global name v.

(** A method of the subsystem bound to the global [name]. *)
Definition method (name : string) (c : call) : M unit :=
  _ ← get_global name;
  extern c.

Definition ladders_request (c : config) : string :=
  if remoteladder c then "./ladders-remote" else "./ladders".

(** [global.Db = require('origindb')('config/db')] *)
Definition define_Db : M unit :=
  _ ← require_module "origindb";
  extern (OpenDb "config/db");;
  set_global "Db" (VApply "origindb" "config/db").

(** [global.toId = Tools.getId] *)
Definition define_toId : M unit :=
  _ ← get_global "Tools";
  set_global "toId" (VMember "Tools" "getId").

(** [global.Ladders = require(Config.remoteladder ? './ladders-remote' : './ladders')] *)
Definition define_Ladders : M unit :=
  c ← get_Config;
  define_global "Ladders" (ladders_request c).

Definition setup_globals : M unit :=
  define_global "sqlite3" "sqlite3";;
  define_Db;;
  define_global "Monitor" "./monitor";;
  define_global "Tools" "./tools";;
  define_toId;;
  define_global "LoginServer" "./loginserver";;
  define_Ladders;;
  define_global "Users" "./users";;
  define_global "Punishments" "./punishments";;
  define_global "Chat" "./chat";;
  define_global "Rooms" "./rooms";;
  define_global "Tells" "./tells.js";;
  modify (set_process_send false);;
  define_global "Verifier" "./verifier";;
  method "Verifier" VerifierSpawn;;
  set_global "SG" VObject;;
  define_global "Tournaments" "./tournaments";;
  define_global "Dnsbl" "./dnsbl";;
  method "Dnsbl" DnsblLoadDatacenters.

(** *** Lines 136-176: the crash guard *)

(** [require('./crashlogger')(err, description)]: the module is required,
    which can throw when it is evaluated for the first time, and its
    function called, which can throw too. *)
Definition classify (err : error) (description : string) : M string :=
  _ ← require_module "./crashlogger";
  extern (CrashLogger err description);;
  ret (crashlogger E err description).

Definition on_uncaughtException (err : error) : M unit :=
  crashType ← classify err "The main process";
  if String.eqb crashType "lockdown" then method "Rooms" (StartLockdown err)
  else method "Rooms" (ReportCrash err).

Definition on_unhandledRejection (err : error) : M unit := throw err.

Definition exitCodes : gmap Z string :=
  list_to_map [
    (1, "Uncaught Fatal Exception");
    (2, "Misuse of shell builtins");
    (3, "Internal JavaScript Parse Error");
    (4, "Internal JavaScript Evaluation Failure");
    (5, "Fatal Error");
    (6, "Non-function Internal Exception Handler");
    (7, "Internal Exception Handler Run-Time Failure");
    (8, "Unused Error Code. Formerly used by nodejs. Sometimes indicate a uncaught exception");
    (9, "Invalid Argument");
    (10, "Internal JavaScript Run-Time Failure");
    (11, "A sysadmin forced an emergency exit");
    (12, "Invalid Debug Argument");
    (130, "Control-C via Terminal or Command Prompt")
  ].

(** The truthiness of [exitCodes[code]]: a non-empty string. *)
Definition truthy (s : option string) : bool :=
  match s with
  | Some (String _ _) => true
  | _ => false
  end.

Definition exit_info (code : Z) : string :=
  let exitInfo := "Unused Error Code" in
  if truthy (exitCodes !! code) then default exitInfo (exitCodes !! code)
  else if code >? 128 then "Signal Exit"
  else exitInfo.

Definition exit_reference : string :=
  "Refer to https://github.com/nodejs/node-v0.x-archive/blob/master/doc/api/process.markdown#exit-codes for more details. The process will now exit.".

Definition on_exit (code : Z) : M unit :=
  when (negb (code =? 0))
    (console_log "";;
     console_error ("WARNING: Process exiting with code " +:+ pretty code);;
     console_error ("Exit code details: " +:+ exit_info code +:+ ".");;
     console_error exit_reference).

(** [process.on(name, listener)] *)
Definition process_on (name : string) : M unit :=
  extern (ProcessOn name);;
  modify (set_listeners (λ l, l ++ [name])).

Definition install_crashguard : M unit :=
  c ← get_Config;
  when (crashguard c)
    (process_on "uncaughtException";;
     process_on "unhandledRejection";;
     process_on "exit").

(** *** Lines 182-196: the network *)

(** [exports.listen] *)
Definition app_listen (port bindAddress workerCount : jsarg) : M unit :=
  method "Sockets" (SocketsListen port bindAddress workerCount).

Definition argv_port : jsarg :=
  match argv2 E with
  | Some (String a s) => ParseInt (String a s)
  | _ => Undefined
  end.

Definition start_network : M unit :=
  define_global "Sockets" "./sockets";;
  modify (set_exports_listen true);;
  when (is_main E)
    (method "Sockets" (SocketsListen argv_port Undefined Undefined)).

(** *** Lines 203-212: the last global and the REPL *)

Definition last_global : M unit :=
  method "Tools" ToolsIncludeFormats;;
  define_global "TeamValidator" "./team-validator";;
  method "TeamValidator" TeamValidatorSpawn.

Definition start_repl : M unit :=
  _ ← require_module "./repl";
  extern (ReplStart "app").

(** *** The script, top to bottom *)

Definition startup : M unit :=
  check_dependencies;;
  load_config;;
  watch_config;;
  setup_globals;;
  install_crashguard;;
  start_network;;
  last_global;;
  start_repl.

(** ** The process after the script

    What reaches the listeners the script has registered.  An input that
    finds no listener of the script is left to the platform, whose default
    is no part of the script.  An exception that the listener of rejections
    throws is an uncaught exception of the process, as on the platform. *)

Inductive input :=
  | Edit (path text : string)            (* a file is written from outside *)
  | FileChanged (curr prev : stats)      (* the watcher of the config file fires *)
  | Uncaught (err : error)               (* an exception nobody caught *)
  | Rejected (err : error)               (* a rejection nobody handled *)
  | Exiting (code : Z)                   (* the process exits *)
  | Listen (port bindAddress workerCount : jsarg).  (* app.listen(...) *)

Inductive outcome :=
  | Returned                             (* the listener returned *)
  | Raised (e : error)                   (* the listener threw *)
  | NoListener.                          (* left to the platform *)

Definition outcome_of (r : result unit * world) : outcome * world :=
  match r with
  | (Ok _, w) => (Returned, w)
  | (Throw e, w) => (Raised e, w)
  end.

Definition deliver_uncaught (err : error) (w : world) : outcome * world :=
  if bool_decide ("uncaughtException" ∈ listeners w)
  then outcome_of (run (on_uncaughtException err) w)
  else (NoListener, w).

Definition deliver (i : input) (w : world) : outcome * world :=
  match i with
  | Edit path text => (Returned, set_files <[path := text]> w)
  | FileChanged curr prev =>
      if bool_decide (config_path ∈ watched w)
      then outcome_of (run (on_config_change config_path curr prev) w)
      else (NoListener, w)
  | Uncaught err => deliver_uncaught err w
  | Rejected err =>
      if bool_decide ("unhandledRejection" ∈ listeners w)
      then match run (on_unhandledRejection err) w with
           | (Ok _, w') => (Returned, w')
           | (Throw e, w') => deliver_uncaught e w'
           end
      else (NoListener, w)
  | Exiting code =>
      if bool_decide ("exit" ∈ listeners w)
      then outcome_of (run (on_exit code) w)
      else (NoListener, w)
  | Listen port bindAddress workerCount =>
      if exports_listen w
      then outcome_of (run (app_listen port bindAddress workerCount) w)
      else (NoListener, w)
  end.

(** The world after a sequence of inputs. *)
Definition deliver_all (inputs : list input) (w : world) : world :=
  foldl (λ w i, snd (deliver i w)) w inputs.

End Script.

(** ** What the theorems speak about *)

(** ['sockjs'] resolves in [w]. *)
Definition sockjs_resolves (E : Env) (w : world) : bool :=
  match fst (run (resolve_package E "sockjs") w) with
  | Ok _ => true
  | Throw _ => false
  end.

Definition spawn_install : call := SpawnSync "sh" ["-c"; install_command].

(** The effects of each part of the script when it completes. *)
Definition dependency_events (resolves : bool) : list event :=
  if resolves then []
  else [ELog ("Installing dependencies: `" +:+ install_command +:+ "`...");
        ECall spawn_install].

Definition config_events (fs : gmap string string) : list event :=
  match fs !! config_path with
  | Some _ => []
  | None =>
      [ELog "config.js doesn't exist - creating one with default settings...";
       EWriteFile config_path]
  end.

Definition watch_events (c : config) : list event :=
  if watchconfig c then [ECall (WatchFile config_path)] else [].

Definition globals_events (c : config) : list event :=
  [ERequire "sqlite3"; ERequire "origindb"; ECall (OpenDb "config/db");
   ERequire "./monitor"; ERequire "./tools"; ERequire "./loginserver";
   ERequire (ladders_request c); ERequire "./users"; ERequire "./punishments";
   ERequire "./chat"; ERequire "./rooms"; ERequire "./tells.js";
   ERequire "./verifier"; ECall VerifierSpawn; ERequire "./tournaments";
   ERequire "./dnsbl"; ECall DnsblLoadDatacenters].

Definition crashguard_listeners (c : config) : list string :=
  if crashguard c then ["uncaughtException"; "unhandledRejection"; "exit"] else [].

Definition crashguard_events (c : config) : list event :=
  (λ name, ECall (ProcessOn name)) <$> crashguard_listeners c.

Definition network_events (E : Env) : list event :=
  ERequire "./sockets" ::
  if is_main E then [ECall (SocketsListen (argv_port E) Undefined Undefined)] else [].

Definition final_events : list event :=
  [ECall ToolsIncludeFormats; ERequire "./team-validator"; ECall TeamValidatorSpawn;
   ERequire "./repl"; ECall (ReplStart "app")].

(** The effects of the script after the configuration is loaded. *)
Definition boot_events (E : Env) (c : config) : list event :=
  watch_events c ++ globals_events c ++ crashguard_events c
  ++ network_events E ++ final_events.

(** The script after the configuration is loaded. *)
Definition after_config (E : Env) : M unit :=
  watch_config E;; setup_globals E;; install_crashguard E;; start_network E;;
  last_global E;; start_repl E.

(** The subsystems in the order in which the script requires them, and the
    globals in the order in which it binds them. *)
Definition subsystem_requests (c : config) : list string :=
  ["sqlite3"; "origindb"; "./monitor"; "./tools"; "./loginserver";
   ladders_request c; "./users"; "./punishments"; "./chat"; "./rooms";
   "./tells.js"; "./verifier"; "./tournaments"; "./dnsbl"; "./sockets";
   "./team-validator"; "./repl"].

Definition subsystem_bindings (c : config) : list (string * value) :=
  [("sqlite3", VModule "sqlite3"); ("Db", VApply "origindb" "config/db");
   ("Monitor", VModule "./monitor"); ("Tools", VModule "./tools");
   ("toId", VMember "Tools" "getId"); ("LoginServer", VModule "./loginserver");
   ("Ladders", VModule (ladders_request c)); ("Users", VModule "./users");
   ("Punishments", VModule "./punishments"); ("Chat", VModule "./chat");
   ("Rooms", VModule "./rooms"); ("Tells", VModule "./tells.js");
   ("Verifier", VModule "./verifier"); ("SG", VObject);
   ("Tournaments", VModule "./tournaments"); ("Dnsbl", VModule "./dnsbl");
   ("Sockets", VModule "./sockets"); ("TeamValidator", VModule "./team-validator")].

Definition bind_all (l : list (string * value)) (g : gmap string value) : gmap string value :=
  foldl (λ g b, <[b.1 := b.2]> g) g l.

Definition cache_all (l : list string) (m : gmap string value) : gmap string value :=
  foldl (λ m r, <[r := VModule r]> m) m l.

(** The subsystems a trace requires, in order. *)
Definition requires_of (t : list event) : list string :=
  omap (λ e, match e with ERequire r => Some r | _ => None end) t.

(** [a] happens before [b] in a trace. *)
Definition precedes (a b : event) (t : list event) : Prop :=
  ∃ t1 t2 t3, t = t1 ++ a :: t2 ++ b :: t3.

(** What [require('./config/config')] gives in [w] once the cached exports
    are deleted: the fresh evaluation of the file, or what it throws. *)
Definition reparse (E : Env) (w : world) : result value :=
  fst (run (require_config E) (set_require_cache (delete config_path) w)).

(** What no listener of the script changes. *)
Definition same_process (w w' : world) : Prop :=
  listeners w' = listeners w ∧ watched w' = watched w
  ∧ exports_listen w' = exports_listen w ∧ packages w' = packages w
  ∧ ∀ name, name ≠ "Config" → globals w' !! name = globals w !! name.

(** The events a step added to the trace. *)
Definition added (w w' : world) : list event :=
  drop (length (trace w)) (trace w').

(** The text the first load evaluates: the configuration file, or the
    template when there is none, and the files after it. *)
Definition loaded_text (fs : gmap string string) : option string :=
  match fs !! config_path with
  | Some text => Some text
  | None => fs !! example_path
  end.

Definition files_after_load (fs : gmap string string) : gmap string string :=
  match fs !! config_path, fs !! example_path with
  | None, Some text => <[config_path := text]> fs
  | _, _ => fs
  end.

(** The world in which the script has completed, started on the files [fs]
    and the packages [pkgs], with [c] the configuration it loaded. *)
Record booted (E : Env) (fs : gmap string string) (pkgs : gset string)
    (c : config) (w : world) : Prop := Booted {
  boot_text : ∃ text, loaded_text fs = Some text ∧ eval_config E text = inr c;
  boot_trace :
    trace w = dependency_events (sockjs_resolves E (fresh fs pkgs))
              ++ config_events fs ++ boot_events E c;
  boot_globals : globals w = bind_all (subsystem_bindings c) (<["Config" := VConfig c]> ∅);
  boot_cache :
    require_cache w = cache_all (subsystem_requests c) (<[config_path := VConfig c]> ∅);
  boot_listeners : listeners w = crashguard_listeners c;
  boot_watched : watched w = if watchconfig c then [config_path] else [];
  boot_exports : exports_listen w = true;
  boot_files : files w = files_after_load fs;
  boot_packages :
    packages w = if sockjs_resolves E (fresh fs pkgs) then pkgs else npm_install E pkgs;
  boot_modules : Forall (λ r, module_fault E r = None) (subsystem_requests c);
  boot_calls : ∀ k, ECall k ∈ trace w → call_fault E k = None;
  boot_resolver : resolve_fault E config_request = None;
  boot_main : sockjs_resolves E (fresh fs pkgs) = false → is_main E = true
}.

(** A world in which the script can run again: the configuration and the
    subsystems are cached and bound. *)
Definition ready (c : config) (w : world) : Prop :=
  globals w !! "Config" = Some (VConfig c)
  ∧ require_cache w !! config_path = Some (VConfig c)
  ∧ is_Some (files w !! config_path)
  ∧ (∀ r, r ∈ subsystem_requests c → is_Some (require_cache w !! r))
  ∧ (∀ n, n ∈ (subsystem_bindings c).*1 → is_Some (globals w !! n)).

Definition preserves (c : config) (m : M unit) : Prop :=
  ∀ w, ready c w → ∃ w', run m w = (Ok tt, w') ∧ ready c w'.

(** The action the handler of uncaught exceptions takes on [err] when the
    crash logger has returned. *)
Definition crash_action (E : Env) (err : error) : call :=
  if String.eqb (crashlogger E err "The main process") "lockdown"
  then StartLockdown err
  else ReportCrash err.

(** What requiring and calling the crash logger for [err] throws in [w],
    if anything: the module is evaluated only when it is not cached. *)
Definition logger_fault (E : Env) (w : world) (err : error) : option error :=
  match require_cache w !! "./crashlogger", module_fault E "./crashlogger" with
  | None, Some e => Some e
  | _, _ => call_fault E (CrashLogger err "The main process")
  end.

(** A listener that returns leaves the process running; an exception that
    leaves it, or an input without a listener, is in the hands of the
    platform. *)
Definition keeps_running (o : outcome) : Prop := o = Returned.

(** The diagnostic of the exit code [code]. *)
Definition exit_diagnostic (code : Z) : list event :=
  [ELog "";
   EError ("WARNING: Process exiting with code " +:+ pretty code);
   EError ("Exit code details: " +:+ exit_info code +:+ ".");
   EError exit_reference].

(** The exports cached for the configuration are those bound to [Config],
    when there are any. *)
Definition cache_agrees (w : world) : Prop :=
  require_cache w !! config_path = None
  ∨ require_cache w !! config_path = globals w !! "Config".

(** From a world whose [Config] is [c], [m] leaves [Config] as it is, its
    effects are an initial part of [L], and all of [L] when [m] returns. *)
Definition emits {A} (c : config) (m : M A) (L : list event) : Prop :=
  ∀ w r w', globals w !! "Config" = Some (VConfig c) → run m w = (r, w') →
    globals w' !! "Config" = Some (VConfig c)
    ∧ ∃ l, trace w' = trace w ++ l ∧ l `prefix_of` L ∧ (∀ a, r = Ok a → l = L).

(** ** Executions on concrete worlds *)

Module Examples.

Definition plain : config := Config false false false [("port", "8000")].
Definition guarded : config := Config true true false [("port", "8000")].
Definition remote : config := Config true true true [("port", "8000")].

Definition parse_error : error := Error "" "SyntaxError: Unexpected token".

(** A toy evaluator of configuration texts. *)
Definition eval (text : string) : error + config :=
  if String.eqb text "plain" then inr plain
  else if String.eqb text "guarded" then inr guarded
  else if String.eqb text "remote" then inr remote
  else inl parse_error.

Definition classifier (err : error) (description : string) : string :=
  if String.eqb (err_code err) "ENOMEM" then "lockdown" else "".

Definition env (main : bool) : Env :=
  {| is_main := main;
     argv2 := Some "8000";
     resolve_fault := λ _, None;
     eval_config := eval;
     module_fault := λ _, None;
     call_fault := λ _, None;
     npm_install := λ pkgs, pkgs ∪ {["sockjs"]};
     crashlogger := classifier |}.

(** An installation that achieves nothing, so that [./sockets] cannot load. *)
Definition stubborn : Env :=
  {| is_main := true;
     argv2 := None;
     resolve_fault := λ _, None;
     eval_config := eval;
     module_fault := λ name,
       if String.eqb name "./sockets" then Some (module_not_found "sockjs") else None;
     call_fault := λ _, None;
     npm_install := λ pkgs, pkgs;
     crashlogger := classifier |}.

Definition access_error : error := Error "EACCES" "Error: EACCES: permission denied".

(** A resolver that fails for another reason than an absent file. *)
Definition denied : Env :=
  {| is_main := true;
     argv2 := None;
     resolve_fault := λ request,
       if String.eqb request config_request then Some access_error else None;
     eval_config := eval;
     module_fault := λ _, None;
     call_fault := λ _, None;
     npm_install := λ pkgs, pkgs;
     crashlogger := classifier |}.

Definition disk (text : string) : gmap string string :=
  {[ example_path := "plain"; config_path := text ]}.

Definition first_run_disk : gmap string string := {[ example_path := "plain" ]}.

(** The worlds the script leaves on these disks. *)
Definition started (E : Env) (fs : gmap string string) (pkgs : gset string) : world :=
  snd (run (startup E) (fresh fs pkgs)).

Definition plain_world : world := started (env true) (disk "plain") {["sockjs"]}.
Definition guarded_world : world := started (env true) (disk "guarded") {["sockjs"]}.

Definition out_of_memory : error := Error "ENOMEM" "Error: out of memory".

(** The configuration file edited from outside: into a text that does not
    evaluate, and into one that enables [remoteladder]. *)
Definition broken_world : world :=
  snd (deliver (env true) (Edit config_path "{ unfinished") guarded_world).

Definition edited_inputs : list input :=
  [Edit config_path "remote"; FileChanged (Stats 5) (Stats 3)].

(** A permission cache that fails to recompute. *)
Definition cache_error : error := Error "" "TypeError: groups is not iterable".

Definition deaf : Env :=
  {| is_main := true;
     argv2 := None;
     resolve_fault := λ _, None;
     eval_config := eval;
     module_fault := λ _, None;
     call_fault := λ k, match k with CacheGroupData => Some cache_error | _ => None end;
     npm_install := λ pkgs, pkgs;
     crashlogger := classifier |}.

Definition deaf_world : world := started deaf (disk "guarded") {["sockjs"]}.

(** A crash logger that throws, and a directory that cannot be written. *)
Definition logger_error : error := Error "" "TypeError: Cannot read property 'stack' of null".

Definition mute : Env :=
  {| is_main := true;
     argv2 := None;
     resolve_fault := λ _, None;
     eval_config := eval;
     module_fault := λ _, None;
     call_fault := λ k, match k with CrashLogger _ _ => Some logger_error | _ => None end;
     npm_install := λ pkgs, pkgs;
     crashlogger := classifier |}.

Definition mute_world : world := started mute (disk "guarded") {["sockjs"]}.

Definition read_only : Env :=
  {| is_main := true;
     argv2 := None;
     resolve_fault := λ _, None;
     eval_config := eval;
     module_fault := λ _, None;
     call_fault := λ k, match k with WriteFileSync _ => Some access_error | _ => None end;
     npm_install := λ pkgs, pkgs;
     crashlogger := classifier |}.

(** The script required by another module, and the script run twice. *)
Definition library_world : world := started (env false) (disk "guarded") {["sockjs"]}.

End Examples.

(** * Proofs *)

(** ** Tactics *)

Ltac unfold_monad :=
  unfold run, when, console_log, console_error, set_global, get_global, get_Config,
    mbind, M_bind, mret, M_ret, bind, ret, throw, modify, gets, try_catch, try_finally in *.

Ltac world_simpl :=
  cbn [files packages require_cache globals listeners watched exports_listen
       process_send trace set_files set_packages set_require_cache set_globals
       set_listeners set_watched set_exports_listen set_process_send emit fst snd] in *.

(** ** The statements of the script, one at a time *)

Section Steps.
Context (E : Env).

Lemma bind_ok {A B} (m : M A) (k : A → M B) w b w2 :
  run (m ≫= k) w = (Ok b, w2) →
  ∃ a w1, run m w = (Ok a, w1) ∧ run (k a) w1 = (Ok b, w2).
Proof.
  unfold run, mbind, M_bind, bind. destruct (m w) as [[a|e] w1]; [eauto|done].
Qed.

Lemma bind_run {A B} (m : M A) (k : A → M B) w a w1 :
  run m w = (Ok a, w1) → run (m ≫= k) w = run (k a) w1.
Proof. unfold run, mbind, M_bind, bind. by intros ->. Qed.

Lemma seq_ok {B} (m : M unit) (k : M B) w b w2 :
  run (m ;; k) w = (Ok b, w2) →
  ∃ w1, run m w = (Ok tt, w1) ∧ run k w1 = (Ok b, w2).
Proof. intros (a & w1 & H1 & H2)%bind_ok. destruct a. eauto. Qed.

Lemma seq_run {B} (m : M unit) (k : M B) w w1 :
  run m w = (Ok tt, w1) → run (m ;; k) w = run k w1.
Proof. unfold run, mbind, M_bind, bind. by intros ->. Qed.

Lemma extern_ok c w w1 :
  run (extern E c) w = (Ok tt, w1) → w1 = emit (ECall c) w ∧ call_fault E c = None.
Proof.
  unfold extern. unfold_monad.
  destruct (call_fault E c); [done|]. by intros [= <-].
Qed.

Lemma extern_run c w :
  call_fault E c = None → run (extern E c) w = (Ok tt, emit (ECall c) w).
Proof. unfold extern. unfold_monad. by intros ->. Qed.

Lemma method_ok n c w w1 :
  run (method E n c) w = (Ok tt, w1) →
  w1 = emit (ECall c) w ∧ is_Some (globals w !! n) ∧ call_fault E c = None.
Proof.
  unfold method. intros (v & w' & H1 & H)%bind_ok.
  apply extern_ok in H as [-> Hc]. revert H1. unfold_monad.
  destruct (globals w !! n) eqn:Hg; [|done]. intros [= <- <-]. eauto.
Qed.

Lemma method_run n c w :
  is_Some (globals w !! n) → call_fault E c = None →
  run (method E n c) w = (Ok tt, emit (ECall c) w).
Proof.
  intros [v Hv] Hc. unfold method, extern. unfold_monad. by rewrite Hv, Hc.
Qed.

Lemma define_global_ok n r w w1 :
  require_cache w !! r = None →
  run (define_global E n r) w = (Ok tt, w1) →
  w1 = set_globals <[n := VModule r]>
         (set_require_cache <[r := VModule r]> (emit (ERequire r) w))
  ∧ module_fault E r = None.
Proof.
  intros Hr. unfold define_global, require_module. unfold_monad. world_simpl.
  rewrite Hr. destruct (module_fault E r); [done|]. by intros [= <-].
Qed.

Lemma define_global_run n r v w :
  require_cache w !! r = Some v →
  run (define_global E n r) w = (Ok tt, set_globals <[n := v]> (emit (ERequire r) w)).
Proof.
  intros Hr. unfold define_global, require_module. unfold_monad. world_simpl.
  by rewrite Hr.
Qed.

Lemma define_Db_ok w w1 :
  require_cache w !! "origindb" = None →
  run (define_Db E) w = (Ok tt, w1) →
  w1 = set_globals <["Db" := VApply "origindb" "config/db"]>
         (emit (ECall (OpenDb "config/db"))
            (set_require_cache <["origindb" := VModule "origindb"]>
               (emit (ERequire "origindb") w)))
  ∧ module_fault E "origindb" = None ∧ call_fault E (OpenDb "config/db") = None.
Proof.
  intros Hr. unfold define_Db, require_module, extern. unfold_monad. world_simpl.
  rewrite Hr. destruct (module_fault E _); [done|].
  destruct (call_fault E _); [done|]. by intros [= <-].
Qed.

Lemma define_toId_ok w w1 :
  run define_toId w = (Ok tt, w1) →
  w1 = set_globals <["toId" := VMember "Tools" "getId"]> w.
Proof.
  unfold define_toId. unfold_monad. destruct (globals w !! "Tools"); [|done].
  by intros [= <-].
Qed.

Lemma get_Config_ok w c w1 :
  run get_Config w = (Ok c, w1) → w1 = w ∧ globals w !! "Config" = Some (VConfig c).
Proof.
  unfold_monad. destruct (globals w !! "Config") as [[]|]; try done. by intros [= <- <-].
Qed.

Lemma get_Config_run w c :
  globals w !! "Config" = Some (VConfig c) → run get_Config w = (Ok c, w).
Proof. unfold_monad. by intros ->. Qed.

End Steps.

Ltac fresh_module Hfresh :=
  world_simpl; rewrite ?lookup_insert_ne by done; apply Hfresh; done.

Ltac step_define H Hfresh :=
  let Hs := fresh "Hs" in let Hm := fresh "Hm" in
  apply seq_ok in H as (? & Hs & H);
  apply define_global_ok in Hs as (-> & Hm); [|fresh_module Hfresh].

Ltac step_method H :=
  let Hs := fresh "Hs" in let Hc := fresh "Hc" in
  apply seq_ok in H as (? & Hs & H);
  apply method_ok in Hs as (-> & _ & Hc).


Section Startup.
Context (E : Env).

Lemma watch_config_ok c w w1 :
  globals w !! "Config" = Some (VConfig c) →
  run (watch_config E) w = (Ok tt, w1) →
  w1 = (if watchconfig c
        then set_watched (λ l, l ++ [config_path]) (emit (ECall (WatchFile config_path)) w)
        else w)
  ∧ (watchconfig c = true → call_fault E (WatchFile config_path) = None).
Proof.
  intros Hc. unfold watch_config. intros (c' & w' & [-> Hc']%get_Config_ok & H)%bind_ok.
  assert (c' = c) as -> by congruence.
  destruct (watchconfig c); [|by injection H as <-].
  revert H. unfold resolve_config, extern. unfold_monad.
  destruct (resolve_fault E _); [done|]. world_simpl.
  destruct (files w !! config_path); [|done].
  destruct (call_fault E _); [done|]. by intros [= <-].
Qed.

Lemma install_crashguard_ok c w w1 :
  globals w !! "Config" = Some (VConfig c) →
  run (install_crashguard E) w = (Ok tt, w1) →
  w1 = (if crashguard c
        then set_listeners (λ l, l ++ ["exit"])
               (emit (ECall (ProcessOn "exit"))
               (set_listeners (λ l, l ++ ["unhandledRejection"])
               (emit (ECall (ProcessOn "unhandledRejection"))
               (set_listeners (λ l, l ++ ["uncaughtException"])
               (emit (ECall (ProcessOn "uncaughtException")) w)))))
        else w)
  ∧ (crashguard c = true → ∀ name, name ∈ crashguard_listeners c → call_fault E (ProcessOn name) = None).
Proof.
  intros Hc. unfold install_crashguard. intros (c' & w' & [-> Hc']%get_Config_ok & H)%bind_ok.
  assert (c' = c) as -> by congruence. unfold crashguard_listeners.
  destruct (crashguard c); [|by injection H as <-].
  revert H. unfold process_on, extern. unfold_monad. world_simpl.
  destruct (call_fault E (ProcessOn "uncaughtException")) eqn:H1; [done|].
  destruct (call_fault E (ProcessOn "unhandledRejection")) eqn:H2; [done|].
  destruct (call_fault E (ProcessOn "exit")) eqn:H3; [done|]. intros [= <-].
  split; [done|]. intros _ name Hn.
  repeat (apply elem_of_cons in Hn as [->|Hn]; [done|]). by apply elem_of_nil in Hn.
Qed.

Lemma start_network_ok w w1 :
  require_cache w !! "./sockets" = None →
  run (start_network E) w = (Ok tt, w1) →
  w1 = (if is_main E
        then emit (ECall (SocketsListen (argv_port E) Undefined Undefined))
        else id)
         (set_exports_listen true
            (set_globals <["Sockets" := VModule "./sockets"]>
               (set_require_cache <["./sockets" := VModule "./sockets"]>
                  (emit (ERequire "./sockets") w))))
  ∧ module_fault E "./sockets" = None
  ∧ (is_main E = true →
     call_fault E (SocketsListen (argv_port E) Undefined Undefined) = None).
Proof.
  intros Hr. unfold start_network.
  intros (w' & [-> Hm]%define_global_ok & H)%seq_ok; [|done].
  apply seq_ok in H as (w' & [= <-] & H).
  destruct (is_main E); [|by injection H as <-].
  apply method_ok in H as (-> & _ & Hc). done.
Qed.

Lemma start_repl_ok w w1 :
  require_cache w !! "./repl" = None →
  run (start_repl E) w = (Ok tt, w1) →
  w1 = emit (ECall (ReplStart "app"))
         (set_require_cache <["./repl" := VModule "./repl"]> (emit (ERequire "./repl") w))
  ∧ module_fault E "./repl" = None ∧ call_fault E (ReplStart "app") = None.
Proof.
  intros Hr. unfold start_repl, require_module, extern. unfold_monad. world_simpl.
  rewrite Hr. destruct (module_fault E _); [done|].
  destruct (call_fault E _); [done|]. by intros [= <-].
Qed.

Lemma after_config_ok c w w1 :
  globals w !! "Config" = Some (VConfig c) →
  (∀ r, r ≠ config_path → require_cache w !! r = None) →
  run (after_config E) w = (Ok tt, w1) →
  trace w1 = trace w ++ boot_events E c
  ∧ globals w1 = bind_all (subsystem_bindings c) (globals w)
  ∧ require_cache w1 = cache_all (subsystem_requests c) (require_cache w)
  ∧ listeners w1 = listeners w ++ crashguard_listeners c
  ∧ watched w1 = watched w ++ (if watchconfig c then [config_path] else [])
  ∧ exports_listen w1 = true
  ∧ files w1 = files w ∧ packages w1 = packages w
  ∧ Forall (λ r, module_fault E r = None) (subsystem_requests c)
  ∧ (∀ k, ECall k ∈ boot_events E c → call_fault E k = None).
Proof.
  intros Hc Hfresh H. unfold after_config in H.
  apply seq_ok in H as (w2 & [-> Hw]%(watch_config_ok c) & H); [|done].
  apply seq_ok in H as (w3 & Hg & H).
  unfold boot_events, watch_events, crashguard_events, crashguard_listeners,
    network_events.
  destruct (watchconfig c) eqn:Hwc, (crashguard c) eqn:Hcg, (is_main E) eqn:Hmain.
  all: unfold setup_globals in Hg.
  all: step_define Hg Hfresh.
  all: apply seq_ok in Hg as (? & [-> [Hm1 Hc1]]%define_Db_ok & Hg);
    [|fresh_module Hfresh].
  all: step_define Hg Hfresh; step_define Hg Hfresh.
  all: apply seq_ok in Hg as (? & ->%define_toId_ok & Hg).
  all: step_define Hg Hfresh.
  all: apply seq_ok in Hg as (? & Hl & Hg).
  all: apply bind_ok in Hl as (c' & ? & [-> Hc'']%get_Config_ok & Hl).
  all: world_simpl; rewrite !lookup_insert_ne in Hc'' by done.
  all: assert (c' = c) as -> by congruence.
  all: apply define_global_ok in Hl as [-> Hm5];
    [|unfold ladders_request; destruct (remoteladder c); fresh_module Hfresh].
  all: do 5 (apply seq_ok in Hg as (? & Hs & Hg);
        apply define_global_ok in Hs as (-> & ?);
        [|unfold ladders_request; destruct (remoteladder c); fresh_module Hfresh]).
  all: apply seq_ok in Hg as (? & [= <-] & Hg).
  all: apply seq_ok in Hg as (? & Hs & Hg);
        apply define_global_ok in Hs as (-> & ?);
        [|unfold ladders_request; destruct (remoteladder c); fresh_module Hfresh].
  all: step_method Hg.
  all: apply seq_ok in Hg as (? & [= <-] & Hg).
  all: do 2 (apply seq_ok in Hg as (? & Hs & Hg);
        apply define_global_ok in Hs as (-> & ?);
        [|unfold ladders_request; destruct (remoteladder c); fresh_module Hfresh]).
  all: apply method_ok in Hg as (-> & _ & Hc3).
  all: apply seq_ok in H as (w4 & [-> Hi]%(install_crashguard_ok c) & H);
    [|by (world_simpl; rewrite !lookup_insert_ne by done)].
  all: rewrite Hcg in H.
  all: apply seq_ok in H as (w5 & [-> [Hm6 Hc4]]%start_network_ok & H);
    [|unfold ladders_request; destruct (remoteladder c); fresh_module Hfresh].
  all: rewrite Hmain in H; unfold id in H.
  all: apply seq_ok in H as (w6 & Hlast & H).
  all: unfold last_global in Hlast.
  all: step_method Hlast.
  all: apply seq_ok in Hlast as (? & Hs & Hlast);
        apply define_global_ok in Hs as (-> & ?);
        [|unfold ladders_request; destruct (remoteladder c); fresh_module Hfresh].
  all: apply method_ok in Hlast as (-> & _ & Hc6).
  all: apply start_repl_ok in H as (-> & Hm8 & Hc8);
    [|unfold ladders_request; destruct (remoteladder c); fresh_module Hfresh].
  all: world_simpl.
  all: split; [by rewrite <- !app_assoc|].
  all: split; [done|]. 
  all: split; [done|].
  all: split; [by rewrite <- ?app_assoc, ?app_nil_r|].
  all: split; [by rewrite <- ?app_assoc, ?app_nil_r|].
  all: do 3 (split; [done|]).
  all: split; [unfold subsystem_requests; repeat constructor; done|].
  all: intros k Hk; unfold globals_events, final_events in Hk; cbn in Hk.
  all: try specialize (Hw eq_refl); try specialize (Hi Hcg);
    try specialize (Hc4 Hmain).
  all: repeat (apply elem_of_cons in Hk as [Hk|Hk];
    [try discriminate Hk;
     try (injection Hk as ->;
          first [done | apply Hi; unfold crashguard_listeners; rewrite Hcg;
                        by repeat constructor])|]).
  all: by apply elem_of_nil in Hk.
Qed.
End Startup.

(** ** The script as a whole *)

Section Boot.
Context (E : Env).

Lemma check_dependencies_ok w w1 :
  run (check_dependencies E) w = (Ok tt, w1) →
  w1 = (if sockjs_resolves E w then w
        else set_packages (npm_install E)
               (emit (ECall spawn_install)
                  (emit (ELog ("Installing dependencies: `" +:+ install_command +:+ "`...")) w)))
  ∧ (sockjs_resolves E w = false → is_main E = true ∧ call_fault E spawn_install = None).
Proof.
  unfold check_dependencies, sockjs_resolves, resolve_package, extern, spawn_install.
  unfold_monad.
  destruct (resolve_fault E "sockjs"); world_simpl;
    [|destruct (decide ("sockjs" ∈ packages w)); world_simpl].
  all: try (intros [= <-]; split; [done|]; intros; discriminate).
  all: destruct (is_main E); world_simpl; try done.
  all: destruct (call_fault E _); try done.
  all: by intros [= <-].
Qed.

Lemma require_config_ok w v w1 :
  require_cache w !! config_path = None →
  run (require_config E) w = (Ok v, w1) →
  ∃ c text, files w !! config_path = Some text ∧ eval_config E text = inr c
    ∧ resolve_fault E config_request = None
    ∧ v = VConfig c ∧ w1 = set_require_cache <[config_path := VConfig c]> w.
Proof.
  intros Hr. unfold require_config, resolve_config. unfold_monad.
  destruct (resolve_fault E _); [done|]. world_simpl.
  destruct (files w !! config_path) as [text|] eqn:Hf; [|done]. world_simpl.
  rewrite Hr, Hf. destruct (eval_config E text) as [e|c] eqn:He; [done|].
  intros [= <- <-]. eauto 10.
Qed.

Lemma load_config_ok w w1 :
  require_cache w !! config_path = None →
  run (load_config E) w = (Ok tt, w1) →
  ∃ c text,
    loaded_text (files w) = Some text ∧ eval_config E text = inr c
    ∧ resolve_fault E config_request = None
    ∧ files w1 = files_after_load (files w)
    ∧ trace w1 = trace w ++ config_events (files w)
    ∧ globals w1 = <["Config" := VConfig c]> (globals w)
    ∧ require_cache w1 = <[config_path := VConfig c]> (require_cache w)
    ∧ packages w1 = packages w ∧ listeners w1 = listeners w
    ∧ watched w1 = watched w ∧ exports_listen w1 = exports_listen w.
Proof.
  intros Hr. unfold load_config, try_finally, try_catch, run.
  destruct (mbind _ (resolve_config E) w) as [[[]|err] w2] eqn:Hres.
  - (* the file resolves *)
    destruct (mbind _ (require_config E) w2) as [[[]|?] w3] eqn:Hfin; [|done].
    intros [= <-].
    revert Hres. unfold resolve_config. unfold_monad.
    destruct (resolve_fault E _); [done|]. world_simpl.
    destruct (files w !! config_path) as [text0|] eqn:Hf; [|done]. intros [= <-].
    apply bind_ok in Hfin as (v & w4 & Hq & [= <-]).
    apply require_config_ok in Hq as (c & text & Hf' & He & Hrf & -> & ->); [|done].
    exists c, text. unfold loaded_text, files_after_load, config_events.
    world_simpl. rewrite Hf. rewrite Hf in Hf'. rewrite app_nil_r. done.
  - (* it does not *)
    revert Hres. unfold resolve_config. unfold_monad.
    destruct (resolve_fault E _) as [e0|] eqn:Hrf; world_simpl.
    { intros [= <- <-]. unfold require_config, resolve_config. unfold_monad.
      destruct (negb _); world_simpl.
      - rewrite Hrf. done.
      - unfold fs_readFileSync, fs_writeFileSync, extern. unfold_monad. world_simpl.
        destruct (files w !! example_path); world_simpl;
          [destruct (call_fault E (ReadFileSync _)); world_simpl;
             [|destruct (call_fault E (WriteFileSync _)); world_simpl]|];
          rewrite Hrf; done. }
    destruct (files w !! config_path) as [text0|] eqn:Hf; [done|]. intros [= <- <-].
    cbn [err_code module_not_found]. replace (negb (String.eqb MODULE_NOT_FOUND MODULE_NOT_FOUND)) with false by done.
    unfold fs_readFileSync, fs_writeFileSync. unfold_monad. world_simpl.
    destruct (files w !! example_path) as [text|] eqn:Hx; world_simpl.
    + destruct (call_fault E (ReadFileSync _)); world_simpl.
      { unfold require_config, resolve_config. unfold_monad. rewrite Hrf. world_simpl.
        rewrite Hf. done. }
      destruct (call_fault E (WriteFileSync _)); world_simpl.
      { unfold require_config, resolve_config. unfold_monad. rewrite Hrf. world_simpl.
        rewrite Hf. done. }
      destruct (require_config E _) as [[v|?] w3] eqn:Hq; [|done]. intros [= <-].
      apply require_config_ok in Hq as (c & text' & Hf' & He & _ & -> & ->); [|done].
      world_simpl. rewrite lookup_insert_eq in Hf'. injection Hf' as <-.
      exists c, text. unfold loaded_text, files_after_load, config_events.
      rewrite Hf, Hx. rewrite <- app_assoc. done.
    + unfold require_config, resolve_config. unfold_monad. rewrite Hrf. world_simpl.
      rewrite Hf. done.
Qed.

Lemma bind_all_lookup_ne l g n :
  n ∉ l.*1 → bind_all l g !! n = g !! n.
Proof.
  revert g. induction l as [|[k v] l IH]; intros g Hn; [done|].
  cbn in Hn. apply not_elem_of_cons in Hn as [Hk Hn]. unfold bind_all. cbn.
  fold (bind_all l (<[k:=v]> g)). rewrite IH by done. by rewrite lookup_insert_ne.
Qed.

Lemma bind_all_is_Some l g n :
  n ∈ l.*1 ∨ is_Some (g !! n) → is_Some (bind_all l g !! n).
Proof.
  revert g. induction l as [|[k v] l IH]; intros g Hn.
  - destruct Hn as [Hn|Hn]; [by apply elem_of_nil in Hn|done].
  - unfold bind_all. cbn. fold (bind_all l (<[k:=v]> g)). apply IH.
    destruct Hn as [Hn|Hn].
    + cbn in Hn. apply elem_of_cons in Hn as [->|Hn]; [right|by left].
      rewrite lookup_insert_eq. eauto.
    + right. apply lookup_insert_is_Some'. by right.
Qed.

Lemma cache_all_is_Some l m r :
  r ∈ l ∨ is_Some (m !! r) → is_Some (cache_all l m !! r).
Proof.
  revert m. induction l as [|k l IH]; intros m Hr.
  - destruct Hr as [Hr|Hr]; [by apply elem_of_nil in Hr|done].
  - unfold cache_all. cbn. fold (cache_all l (<[k:=VModule k]> m)). apply IH.
    destruct Hr as [Hr|Hr].
    + apply elem_of_cons in Hr as [->|Hr]; [right|by left].
      rewrite lookup_insert_eq. eauto.
    + right. apply lookup_insert_is_Some'. by right.
Qed.

Lemma cache_all_lookup_ne l m r :
  r ∉ l → cache_all l m !! r = m !! r.
Proof.
  revert m. induction l as [|k l IH]; intros m Hn; [done|].
  apply not_elem_of_cons in Hn as [Hk Hn]. unfold cache_all. cbn.
  fold (cache_all l (<[k:=VModule k]> m)). rewrite IH by done. by rewrite lookup_insert_ne.
Qed.

(** The script completes only in a world that [booted] describes. *)
Lemma startup_ok fs pkgs w1 :
  run (startup E) (fresh fs pkgs) = (Ok tt, w1) → ∃ c, booted E fs pkgs c w1.
Proof.
  unfold startup. intros H.
  apply seq_ok in H as (w2 & [-> Hdep]%check_dependencies_ok & H).
  apply seq_ok in H as (w3 & Hload & H).
  apply load_config_ok in Hload
    as (c & text & Htext & He & Hrf & Hfiles & Htrace & Hglobals & Hcache & Hpk & Hls & Hwa & Hex);
    [|by destruct (sockjs_resolves E _)].
  exists c.
  apply (after_config_ok E c) in H
    as (Ht & Hg & Hca & Hl & Hw & Hx & Hf & Hp & Hm & Hk).
  - assert (files (if sockjs_resolves E (fresh fs pkgs) then fresh fs pkgs else
              set_packages (npm_install E) (emit (ECall spawn_install)
                (emit (ELog ("Installing dependencies: `" +:+ install_command +:+ "`...")) (fresh fs pkgs)))) = fs) as Hfs
      by (by destruct (sockjs_resolves E _)).
    rewrite Hfs in *.
    split.
    + eauto.
    + rewrite Ht, Htrace. destruct (sockjs_resolves E _); world_simpl; by rewrite <- ?app_assoc.
    + rewrite Hg, Hglobals. by destruct (sockjs_resolves E _).
    + rewrite Hca, Hcache. by destruct (sockjs_resolves E _).
    + rewrite Hl, Hls. by destruct (sockjs_resolves E _).
    + rewrite Hw, Hwa. by destruct (sockjs_resolves E _), (watchconfig c).
    + done.
    + by rewrite Hf, Hfiles.
    + rewrite Hp, Hpk. by destruct (sockjs_resolves E _).
    + done.
    + intros k. rewrite Ht, Htrace. intros Hin.
      apply elem_of_app in Hin as [Hin|Hin]; [|by apply Hk].
      apply elem_of_app in Hin as [Hin|Hin].
      * destruct (sockjs_resolves E _); world_simpl; [by apply elem_of_nil in Hin|].
        destruct Hdep as [_ Hsp]; [done|].
        repeat (apply elem_of_cons in Hin as [Hin|Hin]; [try discriminate Hin; try by injection Hin as ->|]).
        by apply elem_of_nil in Hin.
      * unfold config_events in Hin. destruct (fs !! config_path).
        -- by apply elem_of_nil in Hin.
        -- repeat (apply elem_of_cons in Hin as [Hin|Hin]; [discriminate Hin|]).
           by apply elem_of_nil in Hin.
    + done.
    + intros Hs. by apply Hdep.
  - rewrite Hglobals. apply lookup_insert_eq.
  - intros r Hr. rewrite Hcache. rewrite lookup_insert_ne by done.
    by destruct (sockjs_resolves E _).
Qed.

Lemma booted_Config fs pkgs c w :
  booted E fs pkgs c w → globals w !! "Config" = Some (VConfig c).
Proof.
  intros B. rewrite (boot_globals _ _ _ _ _ B).
  rewrite bind_all_lookup_ne; [apply lookup_insert_eq|].
  cbn. rewrite !not_elem_of_cons. repeat split; try done. apply not_elem_of_nil.
Qed.

Lemma startup_booted fs pkgs c w :
  run (startup E) (fresh fs pkgs) = (Ok tt, w) →
  globals w !! "Config" = Some (VConfig c) →
  booted E fs pkgs c w.
Proof.
  intros [c' B]%startup_ok Hc. pose proof (booted_Config _ _ _ _ B) as Hc'.
  assert (c' = c) as -> by congruence. done.
Qed.

End Boot.

(** ** The listeners *)

Section Listeners.
Context (E : Env).

Lemma deliver_same_process i w : same_process w (snd (deliver E i w)).
Proof.
  destruct i; unfold deliver, deliver_uncaught, outcome_of, on_config_change,
    on_uncaughtException, on_unhandledRejection, on_exit, app_listen, method,
    classify, require_module, require_config, resolve_config, extern.
  all: unfold_monad.
  all: repeat case_match; simplify_eq; world_simpl.
  all: unfold same_process; world_simpl; repeat split; try done.
  all: try (intros name Hn; by rewrite ?lookup_insert_ne).
Qed.

Lemma deliver_all_same_process inputs w : same_process w (deliver_all E inputs w).
Proof.
  revert w. induction inputs as [|i inputs IH]; intros w; [by repeat split|].
  unfold deliver_all. cbn. fold (deliver_all E inputs (snd (deliver E i w))).
  destruct (IH (deliver E i w).2) as (H1 & H2 & H3 & H4 & H5).
  destruct (deliver_same_process i w) as (G1 & G2 & G3 & G4 & G5).
  repeat split; try congruence. intros name Hn. rewrite H5, G5; done.
Qed.

(** The handler of uncaught exceptions, where [Rooms] is bound: when the
    crash logger loads and returns, the action follows. *)
Lemma on_uncaughtException_run err w :
  is_Some (globals w !! "Rooms") →
  logger_fault E w err = None →
  ∃ w', run (on_uncaughtException E err) w
        = (match call_fault E (crash_action E err) with
           | Some e => Throw e
           | None => Ok tt
           end, w')
    ∧ trace w' = trace w ++ [ERequire "./crashlogger";
                             ECall (CrashLogger err "The main process");
                             ECall (crash_action E err)].
Proof.
  intros [v Hv]. unfold logger_fault, on_uncaughtException, classify, require_module,
    method, extern, crash_action.
  unfold_monad. world_simpl. intros Hf.
  destruct (require_cache w !! "./crashlogger"); [|destruct (module_fault E _); [done|]];
    world_simpl; rewrite Hf; world_simpl.
  all: clear Hf; destruct (String.eqb _ _); world_simpl; rewrite Hv; world_simpl.
  all: destruct (call_fault E _); eexists; (split; [done|]); world_simpl.
  all: by rewrite <- !app_assoc.
Qed.

(** When requiring or calling the crash logger throws, so does the handler,
    before it has chosen an action. *)
Lemma on_uncaughtException_fault err w e :
  logger_fault E w err = Some e →
  ∃ w', run (on_uncaughtException E err) w = (Throw e, w')
    ∧ (trace w' = trace w ++ [ERequire "./crashlogger"]
       ∨ trace w' = trace w ++ [ERequire "./crashlogger";
                                ECall (CrashLogger err "The main process")]).
Proof.
  unfold logger_fault, on_uncaughtException, classify, require_module, extern.
  unfold_monad. world_simpl. intros Hf.
  destruct (require_cache w !! "./crashlogger");
    [|destruct (module_fault E _); [simplify_eq; eexists; split; [done|]; by left|]];
    world_simpl; rewrite Hf; world_simpl.
  all: eexists; (split; [done|]); right; world_simpl; by rewrite <- !app_assoc.
Qed.

Lemma on_exit_run code w :
  run (on_exit code) w
  = (Ok tt, if code =? 0 then w else foldl (λ w e, emit e w) w (exit_diagnostic code)).
Proof. unfold on_exit. unfold_monad. by destruct (code =? 0). Qed.

(** The listener of the watcher: nothing for a file that is not newer. *)
Lemma on_config_change_older curr prev w :
  mtime curr ≤ mtime prev →
  run (on_config_change E config_path curr prev) w = (Ok tt, w).
Proof.
  intros Hle. unfold on_config_change.
  by destruct (Z.leb_spec (mtime curr) (mtime prev)); [|lia].
Qed.

(** A reload whose evaluation throws. *)
Lemma on_config_change_throws curr prev w e :
  mtime prev < mtime curr →
  reparse E w = Throw e →
  run (on_config_change E config_path curr prev) w
  = (Ok tt, emit (ELog ("Error reloading config/config.js: " +:+ err_stack e))
              (snd (run (require_config E) (set_require_cache (delete config_path) w)))).
Proof.
  intros Hlt. unfold on_config_change, reparse.
  destruct (Z.leb_spec (mtime curr) (mtime prev)); [lia|].
  unfold_monad.
  destruct (require_config E _) as [[v|e'] w'] eqn:Hq; world_simpl; [done|].
  by intros [= ->].
Qed.

Lemma require_config_frame w r w' :
  run (require_config E) w = (r, w') →
  globals w' = globals w ∧ files w' = files w ∧ trace w' = trace w
  ∧ listeners w' = listeners w ∧ watched w' = watched w
  ∧ exports_listen w' = exports_listen w ∧ packages w' = packages w.
Proof.
  unfold require_config, resolve_config. unfold_monad.
  repeat case_match; simplify_eq; world_simpl; by intros [= <- <-].
Qed.

(** A reload whose evaluation gives [v]. *)
Lemma on_config_change_reloads curr prev w v :
  mtime prev < mtime curr →
  reparse E w = Ok v →
  ∃ w',
    run (on_config_change E config_path curr prev) w = (Ok tt, w')
    ∧ globals w' = <["Config" := v]> (globals w)
    ∧ trace w'
      = trace w
        ++ (if bool_decide (is_Some (globals w !! "Users")) then [ECall CacheGroupData] else [])
        ++ [ELog (match (if bool_decide (is_Some (globals w !! "Users"))
                         then call_fault E CacheGroupData else None) with
                  | Some e => "Error reloading config/config.js: " +:+ err_stack e
                  | None => "Reloaded config/config.js"
                  end)].
Proof.
  intros Hlt. unfold on_config_change, reparse.
  destruct (Z.leb_spec (mtime curr) (mtime prev)); [lia|].
  unfold_monad.
  destruct (require_config E _) as [[v'|e'] w'] eqn:Hq; world_simpl; [|done].
  intros [= ->].
  apply require_config_frame in Hq as (Hg & _ & Ht & _). world_simpl.
  rewrite lookup_insert_ne by done. rewrite Hg.
  unfold extern. unfold_monad.
  destruct (bool_decide _); world_simpl.
  - destruct (call_fault E CacheGroupData); world_simpl;
      eexists; (split; [done|]); world_simpl; rewrite Hg, Ht, <- ?app_assoc; done.
  - eexists; (split; [done|]); world_simpl; rewrite Hg, Ht; done.
Qed.

(** What evaluating the file gives decides [reparse]. *)
Lemma reparse_text w text :
  resolve_fault E config_request = None →
  files w !! config_path = Some text →
  reparse E w = match eval_config E text with
                | inl e => Throw e
                | inr c => Ok (VConfig c)
                end.
Proof.
  intros Hrf Hf. unfold reparse, require_config, resolve_config. unfold_monad.
  rewrite Hrf. world_simpl. rewrite Hf. world_simpl. rewrite lookup_delete_eq.
  world_simpl. rewrite Hf. by destruct (eval_config E text).
Qed.

End Listeners.

Section Running.
Context (E : Env) (fs : gmap string string) (pkgs : gset string)
  (c : config) (w1 : world) (B : booted E fs pkgs c w1).

Lemma booted_global n v :
  (n, v) ∈ subsystem_bindings c → globals w1 !! n = Some v.
Proof.
  rewrite (boot_globals _ _ _ _ _ B). unfold subsystem_bindings, bind_all. cbn [foldl fst snd].
  intros Hin.
  repeat (apply elem_of_cons in Hin as [[= -> ->]|Hin];
          [by rewrite ?lookup_insert_ne by done; rewrite lookup_insert_eq|]).
  by apply elem_of_nil in Hin.
Qed.

Lemma running_global inputs n v :
  (n, v) ∈ subsystem_bindings c → globals (deliver_all E inputs w1) !! n = Some v.
Proof.
  intros Hin. destruct (deliver_all_same_process E inputs w1) as (_ & _ & _ & _ & H).
  rewrite H; [by apply booted_global|].
  intros ->. revert Hin. unfold subsystem_bindings.
  rewrite !elem_of_cons, elem_of_nil. intros H'. by destruct_or!.
Qed.

Lemma running_listeners inputs :
  listeners (deliver_all E inputs w1) = crashguard_listeners c.
Proof.
  destruct (deliver_all_same_process E inputs w1) as (-> & _).
  apply (boot_listeners _ _ _ _ _ B).
Qed.

Lemma running_watched inputs :
  watched (deliver_all E inputs w1) = if watchconfig c then [config_path] else [].
Proof.
  destruct (deliver_all_same_process E inputs w1) as (_ & -> & _).
  apply (boot_watched _ _ _ _ _ B).
Qed.

Lemma running_exports inputs : exports_listen (deliver_all E inputs w1) = true.
Proof.
  destruct (deliver_all_same_process E inputs w1) as (_ & _ & -> & _).
  apply (boot_exports _ _ _ _ _ B).
Qed.

End Running.

(** ** Running the script again *)

Section Again.
Context (E : Env) (c : config).

Lemma ready_frame w w' :
  globals w' = globals w → require_cache w' = require_cache w → files w' = files w →
  ready c w → ready c w'.
Proof. unfold ready. by intros -> -> ->. Qed.

Lemma ready_set_globals n v w :
  n ≠ "Config" → ready c w → ready c (set_globals <[n := v]> w).
Proof.
  intros Hn (H1 & H2 & H3 & H4 & H5). unfold ready. world_simpl.
  rewrite lookup_insert_ne by done. repeat split; try done.
  intros n' Hn'. apply lookup_insert_is_Some'. right. by apply H5.
Qed.

Lemma preserves_seq m k :
  preserves c m → preserves c k → preserves c (m ;; k).
Proof.
  intros Hm Hk w Hw. destruct (Hm w Hw) as (w' & Hr & Hw').
  destruct (Hk w' Hw') as (w'' & Hr' & Hw''). exists w''.
  by rewrite (seq_run _ _ _ _ Hr).
Qed.

Lemma preserves_modify f :
  (∀ w, globals (f w) = globals w ∧ require_cache (f w) = require_cache w
        ∧ files (f w) = files w) →
  preserves c (modify f).
Proof.
  intros Hf w Hw. exists (f w). split; [done|].
  destruct (Hf w) as (? & ? & ?). by eapply ready_frame.
Qed.

Lemma preserves_extern k :
  call_fault E k = None → preserves c (extern E k).
Proof.
  intros Hk w Hw. exists (emit (ECall k) w). split; [by apply extern_run|].
  by eapply ready_frame.
Qed.

Lemma preserves_set_global n v :
  n ≠ "Config" → preserves c (set_global n v).
Proof. intros Hn w Hw. eexists. split; [done|]. by apply ready_set_globals. Qed.

Lemma preserves_define n r :
  n ≠ "Config" → r ∈ subsystem_requests c → preserves c (define_global E n r).
Proof.
  intros Hn Hr w Hw. destruct Hw as (H1 & H2 & H3 & H4 & H5).
  destruct (H4 r Hr) as [v Hv]. eexists. split; [by apply define_global_run|].
  apply ready_set_globals; [done|]. by eapply ready_frame.
Qed.

Lemma preserves_method n k :
  n ∈ (subsystem_bindings c).*1 → call_fault E k = None → preserves c (method E n k).
Proof.
  intros Hn Hk w Hw. exists (emit (ECall k) w). split; [|by eapply ready_frame].
  apply method_run; [|done]. destruct Hw as (_ & _ & _ & _ & H5). by apply H5.
Qed.

Lemma preserves_get_Config (k : config → M unit) :
  preserves c (k c) → preserves c (get_Config ≫= k).
Proof.
  intros Hk w Hw. destruct (Hk w Hw) as (w' & Hr & Hw'). exists w'.
  split; [|done]. rewrite (bind_run _ _ _ c w); [done|].
  apply get_Config_run. by destruct Hw.
Qed.

Lemma resolve_config_run w :
  resolve_fault E config_request = None → is_Some (files w !! config_path) →
  run (resolve_config E) w = (Ok config_path, w).
Proof.
  intros Hrf [t Ht]. unfold resolve_config. unfold_monad. by rewrite Hrf, Ht.
Qed.

Lemma require_config_cached w :
  resolve_fault E config_request = None → ready c w →
  run (require_config E) w = (Ok (VConfig c), w).
Proof.
  intros Hrf (H1 & H2 & H3 & _). unfold require_config.
  rewrite (bind_run _ _ _ _ _ (resolve_config_run w Hrf H3)).
  unfold_monad. by rewrite H2.
Qed.

Lemma ready_set_Config w :
  ready c w → ready c (set_globals <["Config" := VConfig c]> w).
Proof.
  intros (H1 & H2 & H3 & H4 & H5). unfold ready. world_simpl.
  rewrite lookup_insert_eq. repeat split; try done.
  intros n' Hn'. apply lookup_insert_is_Some'. right. by apply H5.
Qed.

Lemma preserves_load_config :
  resolve_fault E config_request = None → preserves c (load_config E).
Proof.
  intros Hrf w Hw. exists (set_globals <["Config" := VConfig c]> w).
  split; [|by apply ready_set_Config].
  pose proof (bind_run (resolve_config E) (λ _, ret tt) _ _ _
                (resolve_config_run w Hrf (proj1 (proj2 (proj2 Hw))))) as H1.
  pose proof (bind_run (require_config E) (λ v, set_global "Config" v) _ _ _
                (require_config_cached w Hrf Hw)) as H2.
  unfold load_config, try_finally, try_catch, run in *.
  rewrite H1. unfold ret at 1. cbv beta iota. by rewrite H2.
Qed.

Section Calls.
Context (Hrf : resolve_fault E config_request = None)
  (Hcalls : ∀ k, ECall k ∈ boot_events E c → call_fault E k = None).

Ltac in_list :=
  unfold subsystem_requests, subsystem_bindings, ladders_request;
  destruct (remoteladder c); cbn; by repeat constructor.
Ltac in_trace :=
  unfold boot_events, watch_events, globals_events, crashguard_events,
    crashguard_listeners, network_events, final_events;
  destruct (watchconfig c), (crashguard c), (is_main E); cbn; by repeat constructor.
Ltac in_events :=
  apply Hcalls; unfold boot_events, watch_events, globals_events, crashguard_events,
    crashguard_listeners, network_events, final_events;
  destruct (watchconfig c), (crashguard c), (is_main E); cbn; by repeat constructor.

Lemma preserves_watch_config : preserves c (watch_config E).
Proof.
  apply preserves_get_Config. unfold when. destruct (watchconfig c) eqn:Hwc.
  - intros w Hw. rewrite (bind_run _ _ _ _ _ (resolve_config_run w Hrf (proj1 (proj2 (proj2 Hw))))).
    apply (preserves_seq (extern E (WatchFile config_path))); [| |done].
    + apply preserves_extern. apply Hcalls. unfold boot_events, watch_events.
      rewrite Hwc. apply elem_of_app. left. by constructor.
    + by apply preserves_modify.
  - intros w Hw. by exists w.
Qed.

Lemma preserves_setup_globals : preserves c (setup_globals E).
Proof.
  unfold setup_globals, define_Ladders.
  repeat first
    [ apply preserves_seq
    | apply preserves_define; [done|in_list]
    | apply preserves_method; [in_list|in_events]
    | apply preserves_set_global; done
    | apply preserves_get_Config
    | by apply preserves_modify ].
  - intros w Hw. pose proof Hw as (H1 & H2 & H3 & H4 & H5).
    destruct (H4 "origindb") as [v Hv]; [in_list|].
    exists (set_globals <["Db" := VApply "origindb" "config/db"]>
              (emit (ECall (OpenDb "config/db")) (emit (ERequire "origindb") w))).
    split; [|apply ready_set_globals; [done|by eapply ready_frame]].
    unfold define_Db, require_module, extern. unfold_monad. world_simpl. rewrite Hv.
    rewrite Hcalls; [done|in_trace].
  - intros w Hw. pose proof Hw as (H1 & H2 & H3 & H4 & H5).
    destruct (H5 "Tools") as [v Hv]; [in_list|].
    exists (set_globals <["toId" := VMember "Tools" "getId"]> w).
    split; [|by apply ready_set_globals].
    unfold define_toId. unfold_monad. by rewrite Hv.
Qed.

Lemma preserves_install_crashguard : preserves c (install_crashguard E).
Proof.
  apply preserves_get_Config. unfold when, process_on. destruct (crashguard c) eqn:Hcg.
  - repeat first
      [ apply preserves_extern; apply Hcalls; unfold boot_events, crashguard_events,
          crashguard_listeners, watch_events, network_events; rewrite Hcg;
          destruct (watchconfig c), (is_main E); cbn; by repeat constructor
      | apply preserves_seq
      | by apply preserves_modify ].
  - intros w Hw. by exists w.
Qed.

Lemma preserves_after_config : preserves c (after_config E).
Proof.
  unfold after_config.
  apply preserves_seq; [apply preserves_watch_config|].
  apply preserves_seq; [apply preserves_setup_globals|].
  apply preserves_seq; [apply preserves_install_crashguard|].
  unfold start_network, last_global, start_repl, when.
  repeat first
    [ apply preserves_seq
    | apply preserves_define; [done|in_list]
    | by apply preserves_modify ].
  - destruct (is_main E) eqn:Hmain; [|intros w Hw; by exists w].
    apply preserves_method; [in_list|]. apply Hcalls.
    unfold boot_events, network_events, watch_events, crashguard_events, crashguard_listeners.
    rewrite Hmain. destruct (watchconfig c), (crashguard c); cbn; by repeat constructor.
  - apply preserves_method; [in_list|in_events].
  - apply preserves_method; [in_list|in_events].
  - intros w Hw. pose proof Hw as (H1 & H2 & H3 & H4 & H5).
    destruct (H4 "./repl") as [v Hv]; [in_list|].
    exists (emit (ECall (ReplStart "app")) (emit (ERequire "./repl") w)).
    split; [|by eapply ready_frame].
    unfold require_module, extern. unfold_monad. world_simpl. rewrite Hv.
    rewrite Hcalls; [done|in_trace].
Qed.

End Calls.

Lemma sockjs_resolves_packages w w' :
  packages w = packages w' → sockjs_resolves E w = sockjs_resolves E w'.
Proof.
  intros Hp. unfold sockjs_resolves, resolve_package. unfold_monad.
  destruct (resolve_fault E "sockjs"); [done|]. world_simpl. rewrite Hp.
  by destruct (decide _).
Qed.

Lemma check_dependencies_again w :
  sockjs_resolves E w = true ∨ (is_main E = true ∧ call_fault E spawn_install = None) →
  ready c w →
  ∃ w', run (check_dependencies E) w = (Ok tt, w') ∧ ready c w'.
Proof.
  intros Hd Hw.
  unfold check_dependencies, sockjs_resolves, resolve_package, extern, spawn_install in *.
  unfold_monad.
  destruct (resolve_fault E "sockjs"); world_simpl;
    [|destruct (decide ("sockjs" ∈ packages w)); world_simpl].
  2: by exists w.
  all: destruct Hd as [Hd|[-> Hs]]; [done|]; world_simpl; rewrite Hs.
  all: eexists; split; [done|]; by eapply ready_frame.
Qed.

End Again.

Section Rerun.
Context (E : Env) (fs : gmap string string) (pkgs : gset string)
  (c : config) (w1 : world) (B : booted E fs pkgs c w1).

Lemma booted_ready : ready c w1.
Proof.
  split; [by eapply booted_Config|].
  split.
  { rewrite (boot_cache _ _ _ _ _ B). rewrite cache_all_lookup_ne; [apply lookup_insert_eq|].
    unfold subsystem_requests, ladders_request.
    rewrite !not_elem_of_cons. destruct (remoteladder c); repeat split; try done;
      apply not_elem_of_nil. }
  split.
  { rewrite (boot_files _ _ _ _ _ B). destruct (boot_text _ _ _ _ _ B) as (text & Ht & _).
    revert Ht. unfold loaded_text, files_after_load.
    destruct (fs !! config_path) eqn:Hf; [by rewrite Hf|].
    intros ->. rewrite lookup_insert_eq. eauto. }
  split.
  - intros r Hr. rewrite (boot_cache _ _ _ _ _ B). apply cache_all_is_Some. by left.
  - intros n Hn. rewrite (boot_globals _ _ _ _ _ B). apply bind_all_is_Some. by left.
Qed.

(** The script run again in the world it left completes again. *)
Lemma startup_again : ∃ w2, run (startup E) w1 = (Ok tt, w2).
Proof.
  assert (∀ k, ECall k ∈ boot_events E c → call_fault E k = None) as Hcalls.
  { intros k Hk. apply (boot_calls _ _ _ _ _ B). rewrite (boot_trace _ _ _ _ _ B).
    rewrite !elem_of_app. auto. }
  assert (sockjs_resolves E w1 = true
          ∨ (is_main E = true ∧ call_fault E spawn_install = None)) as Hdeps.
  { destruct (sockjs_resolves E (fresh fs pkgs)) eqn:Hs.
    + left. pose proof (boot_packages _ _ _ _ _ B) as Hp. rewrite Hs in Hp.
      by rewrite (sockjs_resolves_packages E w1 (fresh fs pkgs)).
    + right. split; [by apply (boot_main _ _ _ _ _ B)|].
      apply (boot_calls _ _ _ _ _ B). rewrite (boot_trace _ _ _ _ _ B), Hs.
      apply elem_of_app. left. cbn. by repeat constructor. }
  destruct (check_dependencies_again E c w1 Hdeps booted_ready) as (w2 & Hr & Hw2).
  destruct (preserves_load_config E c (boot_resolver _ _ _ _ _ B) w2 Hw2) as (w3 & Hr3 & Hw3).
  destruct (preserves_after_config E c (boot_resolver _ _ _ _ _ B) Hcalls w3 Hw3)
    as (w4 & Hr4 & Hw4).
  exists w4. unfold startup.
  rewrite (seq_run _ _ _ _ Hr), (seq_run _ _ _ _ Hr3). apply Hr4.
Qed.

End Rerun.

(** ** The claims *)

Lemma added_app w w' l : trace w' = trace w ++ l → added w w' = l.
Proof. unfold added. intros ->. by rewrite drop_app_length. Qed.

Lemma trace_grows w w' l : trace w' = trace w ++ l → l ≠ [] → w' ≠ w.
Proof.
  intros Ht Hl ->. apply Hl. apply (f_equal length) in Ht.
  rewrite length_app in Ht. destruct l; [done|]. cbn in Ht. lia.
Qed.

Lemma deliver_FileChanged_watched E curr prev w :
  config_path ∈ watched w →
  deliver E (FileChanged curr prev) w
  = outcome_of (run (on_config_change E config_path curr prev) w).
Proof. intros Hw. cbn [deliver]. by rewrite bool_decide_eq_true_2. Qed.

(** C1: a hot reload in which evaluating the configuration file again throws
    leaves the bindings of [global] as they were, [Config] among them, so a
    reader gets the snapshot of before the reload; where the file is watched
    and newer, the one effect is the line that logs the error. *)
Theorem reload_failure_keeps_config E w curr prev e :
  reparse E w = Throw e →
  let w' := snd (deliver E (FileChanged curr prev) w) in
  globals w' = globals w
  ∧ fst (run get_Config w') = fst (run get_Config w)
  ∧ (config_path ∈ watched w → mtime prev < mtime curr →
     trace w' = trace w ++ [ELog ("Error reloading config/config.js: " +:+ err_stack e)]).
Proof.
  intros He w'.
  assert (globals w' = globals w) as Hg.
  { subst w'. cbn [deliver]. destruct (bool_decide _); [|done].
    destruct (Z_le_gt_dec (mtime curr) (mtime prev)) as [Hle|Hgt].
    - by rewrite on_config_change_older.
    - rewrite (on_config_change_throws E curr prev w e) by (done || lia).
      destruct (run (require_config E) _) as [r w2] eqn:Hq.
      apply require_config_frame in Hq as (Hq & _). unfold outcome_of. by world_simpl. }
  split; [done|]. split.
  - unfold get_Config, run, mbind, M_bind, bind, gets. rewrite Hg.
    by destruct (globals w !! "Config") as [[]|].
  - intros Hw Hlt. subst w'. rewrite deliver_FileChanged_watched by done.
    rewrite (on_config_change_throws E curr prev w e) by done.
    destruct (run (require_config E) _) as [r w2] eqn:Hq.
    apply require_config_frame in Hq as (_ & _ & Ht & _). unfold outcome_of.
    world_simpl. by rewrite Ht.
Qed.

Lemma deliver_Uncaught_guarded E err w :
  "uncaughtException" ∈ listeners w → is_Some (globals w !! "Rooms") →
  logger_fault E w err = None →
  fst (deliver E (Uncaught err) w)
  = match call_fault E (crash_action E err) with
    | Some e => Raised e
    | None => Returned
    end
  ∧ added w (snd (deliver E (Uncaught err) w))
    = [ERequire "./crashlogger";
       ECall (CrashLogger err "The main process");
       ECall (crash_action E err)].
Proof.
  intros Hl Hr Hf. cbn [deliver]. unfold deliver_uncaught.
  rewrite bool_decide_eq_true_2 by done.
  destruct (on_uncaughtException_run E err w Hr Hf) as (w' & -> & Ht).
  unfold outcome_of. split; [by destruct (call_fault E _)|].
  apply added_app. by destruct (call_fault E _).
Qed.

Lemma deliver_Uncaught_fault E err w e :
  "uncaughtException" ∈ listeners w → logger_fault E w err = Some e →
  fst (deliver E (Uncaught err) w) = Raised e
  ∧ (added w (snd (deliver E (Uncaught err) w)) = [ERequire "./crashlogger"]
     ∨ added w (snd (deliver E (Uncaught err) w))
       = [ERequire "./crashlogger"; ECall (CrashLogger err "The main process")]).
Proof.
  intros Hl Hf. cbn [deliver]. unfold deliver_uncaught.
  rewrite bool_decide_eq_true_2 by done.
  destruct (on_uncaughtException_fault E err w e Hf) as (w' & -> & Ht).
  unfold outcome_of. split; [done|].
  destruct Ht as [Ht|Ht]; [left|right]; by apply added_app.
Qed.

Lemma guarded_listener c name :
  crashguard c = true → name ∈ ["uncaughtException"; "unhandledRejection"; "exit"] →
  name ∈ crashguard_listeners c.
Proof. unfold crashguard_listeners. by intros ->. Qed.

(** C2, as the script has it: with the crash guard enabled, every uncaught
    exception of the main process reaches the handler, which requires the
    crash logger and calls it.  When the logger loads and returns a crash
    type, exactly one call follows: [startLockdown] when the type is
    ['lockdown'], [reportCrash] otherwise, in which case no lockdown is
    started.  When requiring or calling the logger throws, the handler
    throws that error and takes neither action. *)
Theorem uncaught_fault_classified E fs pkgs w1 c inputs err :
  run (startup E) (fresh fs pkgs) = (Ok tt, w1) →
  globals w1 !! "Config" = Some (VConfig c) →
  crashguard c = true →
  let w := deliver_all E inputs w1 in
  let o := fst (deliver E (Uncaught err) w) in
  let w' := snd (deliver E (Uncaught err) w) in
  o ≠ NoListener
  ∧ (logger_fault E w err = None →
     added w w' = [ERequire "./crashlogger";
                   ECall (CrashLogger err "The main process");
                   ECall (crash_action E err)]
     ∧ (crashlogger E err "The main process" = "lockdown" →
        crash_action E err = StartLockdown err)
     ∧ (crashlogger E err "The main process" ≠ "lockdown" →
        crash_action E err = ReportCrash err
        ∧ ∀ e, ECall (StartLockdown e) ∉ added w w'))
  ∧ (∀ e, logger_fault E w err = Some e →
     o = Raised e
     ∧ (∀ e', ECall (StartLockdown e') ∉ added w w')
     ∧ (∀ e', ECall (ReportCrash e') ∉ added w w')).
Proof.
  intros Hrun Hc Hcg w o w'. pose proof (startup_booted E _ _ _ _ Hrun Hc) as B.
  assert ("uncaughtException" ∈ listeners w) as Hl.
  { subst w. rewrite (running_listeners E _ _ _ _ B). apply guarded_listener; [done|].
    by repeat constructor. }
  assert (is_Some (globals w !! "Rooms")) as Hr.
  { subst w. rewrite (running_global E _ _ _ _ B inputs "Rooms" (VModule "./rooms")); [done|].
    unfold subsystem_bindings. by repeat constructor. }
  split; [|split].
  - subst o. destruct (logger_fault E w err) as [e|] eqn:Hf.
    + destruct (deliver_Uncaught_fault E err w e Hl Hf) as [-> _]. done.
    + destruct (deliver_Uncaught_guarded E err w Hl Hr Hf) as [-> _].
      by destruct (call_fault E _).
  - intros Hf. destruct (deliver_Uncaught_guarded E err w Hl Hr Hf) as [_ Ha].
    split; [done|]. unfold crash_action. split.
    + by intros ->.
    + intros Hne.
      destruct (String.eqb_spec (crashlogger E err "The main process") "lockdown");
        [done|]. split; [done|]. intros e. subst w'. rewrite Ha. unfold crash_action.
      destruct (String.eqb_spec (crashlogger E err "The main process") "lockdown"); [done|].
      rewrite !not_elem_of_cons. repeat split; try done. apply not_elem_of_nil.
  - intros e Hf. destruct (deliver_Uncaught_fault E err w e Hl Hf) as [Ho Ha].
    split; [done|]. subst w'.
    destruct Ha as [-> | ->]; split; intros e'; rewrite !not_elem_of_cons;
      repeat split; try done; apply not_elem_of_nil.
Qed.

(** C10: after the script, no input changes a binding of [global] other
    than [Config], nor the listeners: a hot reload rebinds [Config] alone
    and calls [Users.cacheGroupData]; [Ladders] stays the module chosen from
    [remoteladder] of the configuration loaded at startup, whatever the
    reloads make of that option. *)
Theorem reload_frame E fs pkgs w1 c inputs curr prev :
  run (startup E) (fresh fs pkgs) = (Ok tt, w1) →
  globals w1 !! "Config" = Some (VConfig c) →
  let w := deliver_all E inputs w1 in
  let w' := snd (deliver E (FileChanged curr prev) w) in
  (∀ name, name ≠ "Config" → globals w' !! name = globals w !! name)
  ∧ same_process w w'
  ∧ files w' = files w
  ∧ (∀ k, ECall k ∈ added w w' → k = CacheGroupData)
  ∧ globals w' !! "Ladders" = Some (VModule (ladders_request c))
  ∧ globals w !! "Ladders" = Some (VModule (ladders_request c)).
Proof.
  intros Hrun Hc w w'. pose proof (startup_booted E _ _ _ _ Hrun Hc) as B.
  pose proof (deliver_same_process E (FileChanged curr prev) w) as Hs. fold w' in Hs.
  assert (globals w !! "Ladders" = Some (VModule (ladders_request c))) as HL.
  { subst w. apply (running_global E _ _ _ _ B). unfold subsystem_bindings.
    by repeat constructor. }
  split; [apply Hs|]. split; [done|]. split; [|split; [|split; [|done]]].
  - subst w'. cbn [deliver]. destruct (bool_decide _); [|done].
    unfold on_config_change, outcome_of, require_config, resolve_config, extern.
    unfold_monad. repeat case_match; simplify_eq; world_simpl; done.
  - intros k. subst w'. cbn [deliver]. unfold added. destruct (bool_decide _);
      [|cbn; rewrite drop_all; by intros ?%elem_of_nil].
    unfold on_config_change, outcome_of, require_config, resolve_config, extern.
    unfold_monad. repeat case_match; simplify_eq; world_simpl.
    all: rewrite <- ?app_assoc, ?drop_app_length, ?drop_all; cbn.
    all: rewrite ?elem_of_cons, ?elem_of_nil; intros Hk; destruct_or?; by simplify_eq.
  - destruct Hs as (_ & _ & _ & _ & Hs). by rewrite Hs.
Qed.

(** C4: with [watchconfig] enabled, the listener of the watcher acts exactly
    when the modification time is strictly greater than the previous one,
    and leaves the world untouched otherwise; when evaluating the file then
    succeeds, [Config] is bound to the fresh exports and
    [Users.cacheGroupData] is called. *)
Theorem reload_iff_newer E fs pkgs w1 c inputs curr prev :
  run (startup E) (fresh fs pkgs) = (Ok tt, w1) →
  globals w1 !! "Config" = Some (VConfig c) →
  watchconfig c = true →
  let w := deliver_all E inputs w1 in
  let w' := snd (deliver E (FileChanged curr prev) w) in
  (mtime prev < mtime curr ↔ w' ≠ w)
  ∧ (mtime prev < mtime curr → ∀ v, reparse E w = Ok v →
     globals w' !! "Config" = Some v
     ∧ ∃ line, added w w' = [ECall CacheGroupData; ELog line])
  ∧ (mtime curr ≤ mtime prev → w' = w).
Proof.
  intros Hrun Hc Hwc w w'. pose proof (startup_booted E _ _ _ _ Hrun Hc) as B.
  assert (config_path ∈ watched w) as Hw.
  { subst w. rewrite (running_watched E _ _ _ _ B), Hwc. by constructor. }
  assert (is_Some (globals w !! "Users")) as Hu.
  { subst w. rewrite (running_global E _ _ _ _ B inputs "Users" (VModule "./users")); [done|].
    unfold subsystem_bindings. by repeat constructor. }
  subst w'. rewrite deliver_FileChanged_watched by done.
  split; [split|split].
  - intros Hlt. destruct (reparse E w) as [v|e] eqn:Hq.
    + destruct (on_config_change_reloads E curr prev w v Hlt Hq) as (w2 & -> & _ & Ht).
      unfold outcome_of. world_simpl. eapply trace_grows; [exact Ht|].
      by destruct (bool_decide _).
    + rewrite (on_config_change_throws E curr prev w e Hlt Hq).
      destruct (run (require_config E) _) as [r w2] eqn:Hr.
      apply require_config_frame in Hr as (_ & _ & Ht & _). unfold outcome_of.
      world_simpl. eapply (trace_grows _ _ [_]); [|done]. world_simpl. by rewrite Ht.
  - intros Hne. destruct (Z_lt_le_dec (mtime prev) (mtime curr)) as [|Hle]; [done|].
    by rewrite on_config_change_older in Hne.
  - intros Hlt v Hq.
    destruct (on_config_change_reloads E curr prev w v Hlt Hq) as (w2 & -> & Hg & Ht).
    unfold outcome_of. world_simpl. rewrite Hg, lookup_insert_eq. split; [done|].
    rewrite bool_decide_eq_true_2 in Ht by done. eexists. apply added_app. exact Ht.
  - intros Hle. by rewrite on_config_change_older.
Qed.

(** C3, as the script has it: on the first load, a configuration file
    that is absent is written from the template, the snapshot bound to
    [Config] is the evaluation of the template's text and the load
    completes; a file that exists is never written.  A resolver failure
    other than an absent file is thrown again, as is the error of a file
    that fails to evaluate, be it the existing file or the copy of the
    template.  A copy that fails (no template, or reading it or writing the
    file throws) leaves the file absent, and the error of the copy is
    replaced by that of [require] in the [finally] block:
    [MODULE_NOT_FOUND].  Whatever the load throws aborts the script. *)
Theorem first_load E w :
  (∀ e, resolve_fault E config_request = Some e → err_code e ≠ MODULE_NOT_FOUND) →
  require_cache w !! config_path = None →
  let r := fst (run (load_config E) w) in
  let w' := snd (run (load_config E) w) in
  let copies text :=
    files w !! config_path = None ∧ files w !! example_path = Some text
    ∧ resolve_fault E config_request = None
    ∧ call_fault E (ReadFileSync example_path) = None
    ∧ call_fault E (WriteFileSync config_path) = None in
  (∀ text c, copies text → eval_config E text = inr c →
     r = Ok tt ∧ files w' = <[config_path := text]> (files w)
     ∧ globals w' !! "Config" = Some (VConfig c))
  ∧ (is_Some (files w !! config_path) →
     files w' = files w ∧ ∀ path, EWriteFile path ∉ added w w')
  ∧ (∀ e, resolve_fault E config_request = Some e → r = Throw e ∧ files w' = files w)
  ∧ (∀ text e,
       files w !! config_path = Some text → resolve_fault E config_request = None →
       eval_config E text = inl e → r = Throw e)
  ∧ (∀ text e, copies text → eval_config E text = inl e →
       r = Throw e ∧ files w' = <[config_path := text]> (files w))
  ∧ (files w !! config_path = None → resolve_fault E config_request = None →
     files w !! example_path = None
     ∨ is_Some (call_fault E (ReadFileSync example_path))
     ∨ is_Some (call_fault E (WriteFileSync config_path)) →
     r = Throw (module_not_found config_request) ∧ files w' = files w)
  ∧ (∀ e w0, run (check_dependencies E) w0 = (Ok tt, w) → r = Throw e →
       fst (run (startup E) w0) = Throw e).
Proof.
  intros Hwf Hcache r w' copies. subst r w' copies.
  unfold load_config, try_finally, try_catch, require_config, resolve_config,
    fs_readFileSync, fs_writeFileSync.
  split; [|split; [|split; [|split; [|split; [|split]]]]].
  - intros text c (Hf & Hx & Hrf & Hrd & Hwr) He. unfold_monad. world_simpl.
    rewrite Hrf, Hf. world_simpl. cbn [err_code module_not_found].
    change (negb (String.eqb MODULE_NOT_FOUND MODULE_NOT_FOUND)) with false.
    repeat (world_simpl; rewrite ?Hx, ?Hrd, ?Hwr, ?Hcache, ?lookup_insert_eq, ?He).
    done.
  - intros [text Hf]. unfold added. unfold_monad. world_simpl.
    destruct (resolve_fault E config_request) as [e|] eqn:Hrf; world_simpl.
    + specialize (Hwf e eq_refl).
      destruct (String.eqb_spec (err_code e) MODULE_NOT_FOUND); [done|]. world_simpl.
      split; [done|]. intros path. rewrite drop_all. apply not_elem_of_nil.
    + repeat (world_simpl; rewrite ?Hf, ?Hcache).
      destruct (eval_config E text); world_simpl.
      all: split; [done|]; intros path; rewrite drop_all; apply not_elem_of_nil.
  - intros e Hrf. unfold_monad. rewrite Hrf. world_simpl.
    specialize (Hwf e Hrf). by destruct (String.eqb_spec (err_code e) MODULE_NOT_FOUND).
  - intros text e Hf Hrf He. unfold_monad. world_simpl. rewrite Hrf.
    repeat (world_simpl; rewrite ?Hf, ?Hcache, ?He). done.
  - intros text e (Hf & Hx & Hrf & Hrd & Hwr) He. unfold_monad. world_simpl.
    rewrite Hrf, Hf. world_simpl. cbn [err_code module_not_found].
    change (negb (String.eqb MODULE_NOT_FOUND MODULE_NOT_FOUND)) with false.
    repeat (world_simpl; rewrite ?Hx, ?Hrd, ?Hwr, ?Hcache, ?lookup_insert_eq, ?He).
    done.
  - intros Hf Hrf Hcopy. unfold_monad. world_simpl.
    rewrite Hrf, Hf. world_simpl. cbn [err_code module_not_found].
    change (negb (String.eqb MODULE_NOT_FOUND MODULE_NOT_FOUND)) with false.
    world_simpl.
    destruct (files w !! example_path) as [text|] eqn:Hx; world_simpl;
      [destruct (call_fault E (ReadFileSync example_path)) as [e1|] eqn:Hrd; world_simpl;
       [|destruct (call_fault E (WriteFileSync config_path)) as [e2|] eqn:Hwr; world_simpl]|].
    all: repeat (world_simpl; rewrite ?Hrf, ?Hf, ?Hcache); try done.
    destruct Hcopy as [?|[[? ?]|[? ?]]]; done.
  - intros e w0 Hdep Hr. unfold startup.
    rewrite (seq_run _ _ _ _ Hdep).
    change (fst (run (load_config E) w) = Throw e) in Hr.
    unfold run, mbind, M_bind, bind in *.
    destruct (load_config E w) as [[[]|e'] w2]; cbn in Hr; [done|]. by injection Hr as ->.
Qed.

Lemma exit_info_table code text : exitCodes !! code = Some text → exit_info code = text.
Proof.
  intros Hc. unfold exit_info. rewrite Hc. cbn.
  assert (text ≠ "") as Hne; [|by destruct text].
  intros ->. revert Hc. unfold exitCodes. intros Hc%elem_of_list_to_map_2.
  repeat (apply elem_of_cons in Hc as [[=]|Hc]). by apply elem_of_nil in Hc.
Qed.

(** C5, as the script has it: the exit handler is registered with the crash
    guard only.  With the crash guard enabled, the exit code 0 logs
    nothing; another code logs the diagnostic of the code: the text of the
    table when the code is in it (code 1: ['Uncaught Fatal Exception']),
    and for a code that is not, ['Signal Exit'] above 128 and ['Unused
    Error Code'] otherwise. *)
Theorem exit_diagnostics E fs pkgs w1 c inputs code :
  run (startup E) (fresh fs pkgs) = (Ok tt, w1) →
  globals w1 !! "Config" = Some (VConfig c) →
  crashguard c = true →
  let w := deliver_all E inputs w1 in
  let w' := snd (deliver E (Exiting code) w) in
  (code = 0 → w' = w)
  ∧ (code ≠ 0 → added w w' = exit_diagnostic code)
  ∧ exit_info 1 = "Uncaught Fatal Exception"
  ∧ (∀ text, exitCodes !! code = Some text → exit_info code = text)
  ∧ (exitCodes !! code = None → 128 < code → exit_info code = "Signal Exit")
  ∧ (exitCodes !! code = None → code ≤ 128 → exit_info code = "Unused Error Code")
  ∧ exit_info 135 = "Signal Exit"
  ∧ exit_info 130 = "Control-C via Terminal or Command Prompt".
Proof.
  intros Hrun Hc Hcg w w'. pose proof (startup_booted E _ _ _ _ Hrun Hc) as B.
  assert ("exit" ∈ listeners w) as Hl.
  { subst w. rewrite (running_listeners E _ _ _ _ B). apply guarded_listener; [done|].
    by repeat constructor. }
  assert (w' = if code =? 0 then w else foldl (λ w e, emit e w) w (exit_diagnostic code))
    as Hw'.
  { subst w'. cbn [deliver]. rewrite bool_decide_eq_true_2 by done.
    by rewrite on_exit_run. }
  split; [|split; [|split; [|split; [|split; [|split; [|split]]]]]].
  - intros ->. by rewrite Hw'.
  - intros Hne. destruct (Z.eqb_spec code 0); [done|]. apply added_app. rewrite Hw'.
    unfold exit_diagnostic. cbn [foldl]. world_simpl. by rewrite <- !app_assoc.
  - by vm_compute.
  - apply exit_info_table.
  - intros Hn Hgt. unfold exit_info. rewrite Hn. cbn.
    by destruct (Z.gtb_spec code 128); [|lia].
  - intros Hn Hle. unfold exit_info. rewrite Hn. cbn.
    by destruct (Z.gtb_spec code 128); [lia|].
  - by vm_compute.
  - by vm_compute.
Qed.

(** C6, as the script has it: with the crash guard enabled, the handler of
    unhandled rejections throws the rejection again, which makes it an
    uncaught exception of the main process: it is never swallowed, since
    the handler of uncaught exceptions requires the crash logger for it.
    When the logger loads and returns, a lockdown or a crash report
    follows, and when that call returns so does the handler: the rejection
    is contained and the process goes on. *)
Theorem rejection_rethrown E fs pkgs w1 c inputs err :
  run (startup E) (fresh fs pkgs) = (Ok tt, w1) →
  globals w1 !! "Config" = Some (VConfig c) →
  crashguard c = true →
  let w := deliver_all E inputs w1 in
  let o := fst (deliver E (Rejected err) w) in
  let w' := snd (deliver E (Rejected err) w) in
  run (on_unhandledRejection err) w = (Throw err, w)
  ∧ deliver E (Rejected err) w = deliver E (Uncaught err) w
  ∧ o ≠ NoListener
  ∧ (∃ rest, added w w' = ERequire "./crashlogger" :: rest)
  ∧ (logger_fault E w err = None →
     added w w' = [ERequire "./crashlogger";
                   ECall (CrashLogger err "The main process");
                   ECall (crash_action E err)]
     ∧ (call_fault E (crash_action E err) = None → keeps_running o))
  ∧ (∀ e, logger_fault E w err = Some e → o = Raised e).
Proof.
  intros Hrun Hc Hcg w o w'. pose proof (startup_booted E _ _ _ _ Hrun Hc) as B.
  assert (deliver E (Rejected err) w = deliver E (Uncaught err) w) as Hd.
  { cbn [deliver]. rewrite bool_decide_eq_true_2; [done|].
    subst w. rewrite (running_listeners E _ _ _ _ B). apply guarded_listener; [done|].
    by repeat constructor. }
  assert ("uncaughtException" ∈ listeners w) as Hl.
  { subst w. rewrite (running_listeners E _ _ _ _ B). apply guarded_listener; [done|].
    by repeat constructor. }
  assert (is_Some (globals w !! "Rooms")) as Hr.
  { subst w. rewrite (running_global E _ _ _ _ B inputs "Rooms" (VModule "./rooms")); [done|].
    unfold subsystem_bindings. by repeat constructor. }
  split; [done|]. split; [done|]. subst o w'. rewrite Hd.
  destruct (logger_fault E w err) as [e|] eqn:Hf.
  - destruct (deliver_Uncaught_fault E err w e Hl Hf) as [Ho Ha].
    split; [by rewrite Ho|]. split; [destruct Ha as [-> | ->]; by eexists|].
    split; [done|]. intros e' ?. by simplify_eq.
  - destruct (deliver_Uncaught_guarded E err w Hl Hr Hf) as [Ho Ha].
    split; [rewrite Ho; by destruct (call_fault E _)|]. split; [by eexists|].
    split; [|done]. intros _. split; [done|]. intros Hcf.
    unfold keeps_running. by rewrite Ho, Hcf.
Qed.

(** C7, as the script has it: there is no second check.  When ['sockjs']
    does not resolve, a process that is not the entry point throws
    ['Dependencies unmet'] and does nothing else; the entry point logs, runs
    the installation synchronously and goes on when that returns, whether
    the package resolves afterwards or not.  When it resolves, nothing is
    installed. *)
Theorem dependency_check E w :
  (sockjs_resolves E w = true → run (check_dependencies E) w = (Ok tt, w))
  ∧ (sockjs_resolves E w = false → is_main E = false →
     run (check_dependencies E) w = (Throw (Error "" "Error: Dependencies unmet"), w))
  ∧ (sockjs_resolves E w = false → is_main E = true →
     let w' := emit (ECall spawn_install)
                 (emit (ELog ("Installing dependencies: `" +:+ install_command +:+ "`...")) w) in
     run (check_dependencies E) w
     = match call_fault E spawn_install with
       | Some e => (Throw e, w')
       | None => (Ok tt, set_packages (npm_install E) w')
       end).
Proof.
  unfold check_dependencies, sockjs_resolves, resolve_package, extern, spawn_install.
  unfold_monad.
  destruct (resolve_fault E "sockjs"); world_simpl;
    [|destruct (decide ("sockjs" ∈ packages w)); world_simpl].
  all: repeat split; try done.
  all: try (intros _ ->; world_simpl; by destruct (call_fault E _)).
Qed.

Lemma precedes_app_l a b t0 t : precedes a b t → precedes a b (t0 ++ t).
Proof.
  intros (t1 & t2 & t3 & ->). exists (t0 ++ t1), t2, t3. by rewrite <- app_assoc.
Qed.

Lemma precedes_app_r a b t t' : precedes a b t → precedes a b (t ++ t').
Proof.
  intros (t1 & t2 & t3 & ->). exists t1, t2, (t3 ++ t').
  rewrite <- app_assoc. cbn. by rewrite <- app_assoc.
Qed.

Lemma precedes_elem a b l1 l2 : a ∈ l1 → b ∈ l2 → precedes a b (l1 ++ l2).
Proof.
  intros (t1 & t2 & ->)%list_elem_of_split (t3 & t4 & ->)%list_elem_of_split.
  exists t1, (t2 ++ t3), t4. rewrite <- app_assoc. cbn. by rewrite <- app_assoc.
Qed.

(** C8, as the script has it: the effects of a script that completes are
    those of the dependency check, then the configuration load, then the
    watcher, then the globals, among which the [Verifier] workers are
    spawned, then the crash guard, then the network, whose listener starts
    only in the entry point, then the [TeamValidator] workers and the REPL.
    So the [Verifier] workers are spawned before the crash guard is
    installed, and the [TeamValidator] workers after it and after the
    listener. *)
Theorem startup_order E fs pkgs w1 c :
  run (startup E) (fresh fs pkgs) = (Ok tt, w1) →
  globals w1 !! "Config" = Some (VConfig c) →
  trace w1
  = dependency_events (sockjs_resolves E (fresh fs pkgs)) ++ config_events fs
    ++ watch_events c ++ globals_events c ++ crashguard_events c
    ++ network_events E ++ final_events
  ∧ (crashguard c = true →
     precedes (ECall VerifierSpawn) (ECall (ProcessOn "uncaughtException")) (trace w1)
     ∧ precedes (ECall (ProcessOn "exit")) (ECall TeamValidatorSpawn) (trace w1))
  ∧ (is_main E = true →
     precedes (ECall (SocketsListen (argv_port E) Undefined Undefined))
       (ECall TeamValidatorSpawn) (trace w1)).
Proof.
  intros Hrun Hc. pose proof (startup_booted E _ _ _ _ Hrun Hc) as B.
  pose proof (boot_trace _ _ _ _ _ B) as Ht. unfold boot_events in Ht.
  split; [done|]. rewrite Ht. split.
  - intros Hcg. unfold crashguard_events, crashguard_listeners. rewrite Hcg. split.
    + do 3 apply precedes_app_l. rewrite app_assoc. apply precedes_app_r.
      apply precedes_elem; unfold globals_events; cbn; by repeat constructor.
    + do 4 apply precedes_app_l. rewrite app_assoc.
      apply precedes_elem; [|unfold final_events; by repeat constructor].
      apply elem_of_app. left. cbn. by repeat constructor.
  - intros Hmain. unfold network_events. rewrite Hmain.
    do 5 apply precedes_app_l.
    apply precedes_elem; [|unfold final_events]; by repeat constructor.
Qed.

Lemma requires_of_app t t' : requires_of (t ++ t') = requires_of t ++ requires_of t'.
Proof. unfold requires_of. apply omap_app. Qed.

(** C9, as the script has it: nothing rejects a second run.  A script that
    completes has required each subsystem exactly once, in the order of the
    source, and run again in the world it left it completes again. *)
Theorem subsystems_once_in_order E fs pkgs w1 c :
  run (startup E) (fresh fs pkgs) = (Ok tt, w1) →
  globals w1 !! "Config" = Some (VConfig c) →
  requires_of (trace w1) = subsystem_requests c
  ∧ NoDup (subsystem_requests c)
  ∧ ∃ w2, run (startup E) w1 = (Ok tt, w2).
Proof.
  intros Hrun Hc. pose proof (startup_booted E _ _ _ _ Hrun Hc) as B.
  split; [|split].
  - rewrite (boot_trace _ _ _ _ _ B). unfold boot_events.
    rewrite !requires_of_app.
    unfold dependency_events, config_events, watch_events, crashguard_events,
      crashguard_listeners, network_events.
    by destruct (sockjs_resolves E _), (fs !! config_path), (watchconfig c),
      (crashguard c), (is_main E).
  - unfold subsystem_requests, ladders_request.
    destruct (remoteladder c); apply NoDup_ListNoDup; repeat constructor;
      cbn; intros H; repeat (destruct H as [H|H]; [discriminate H|]); done.
  - by eapply startup_again.
Qed.

(** ** The claims on concrete worlds *)

Import Examples.

Lemma guarded_world_run :
  run (startup (env true)) (fresh (disk "guarded") {["sockjs"]}) = (Ok tt, guarded_world).
Proof. vm_compute. reflexivity. Qed.

Lemma guarded_world_Config : globals guarded_world !! "Config" = Some (VConfig guarded).
Proof. vm_compute. reflexivity. Qed.

Lemma plain_world_run :
  run (startup (env true)) (fresh (disk "plain") {["sockjs"]}) = (Ok tt, plain_world).
Proof. vm_compute. reflexivity. Qed.

(** C1 on a file edited into a text that does not evaluate. *)
Lemma reload_failure_keeps_config_witness :
  reparse (env true) broken_world = Throw parse_error
  ∧ globals (snd (deliver (env true) (FileChanged (Stats 5) (Stats 3)) broken_world))
    = globals broken_world.
Proof.
  assert (reparse (env true) broken_world = Throw parse_error) as H
    by (vm_compute; reflexivity).
  split; [exact H|].
  exact (proj1 (reload_failure_keeps_config (env true) broken_world (Stats 5) (Stats 3)
                  parse_error H)).
Defined.

(** C2 as stated fails: with the crash guard enabled and a crash logger
    that throws, an uncaught exception is followed by neither a lockdown nor
    a crash report; the handler throws the logger's error. *)
Lemma crash_logger_throws :
  run (startup mute) (fresh (disk "guarded") {["sockjs"]}) = (Ok tt, mute_world)
  ∧ globals mute_world !! "Config" = Some (VConfig guarded)
  ∧ crashguard guarded = true
  ∧ fst (deliver mute (Uncaught out_of_memory) mute_world) = Raised logger_error
  ∧ added mute_world (snd (deliver mute (Uncaught out_of_memory) mute_world))
    = [ERequire "./crashlogger"; ECall (CrashLogger out_of_memory "The main process")].
Proof.
  do 2 (split; [vm_compute; reflexivity|]). split; [reflexivity|].
  split; vm_compute; reflexivity.
Qed.

(** C2 on an error the crash logger classifies as a lockdown. *)
Lemma uncaught_fault_classified_witness :
  run (startup (env true)) (fresh (disk "guarded") {["sockjs"]}) = (Ok tt, guarded_world)
  ∧ globals guarded_world !! "Config" = Some (VConfig guarded)
  ∧ crashguard guarded = true
  ∧ logger_fault (env true) (deliver_all (env true) [] guarded_world) out_of_memory = None
  ∧ added (deliver_all (env true) [] guarded_world)
      (snd (deliver (env true) (Uncaught out_of_memory)
              (deliver_all (env true) [] guarded_world)))
    = [ERequire "./crashlogger"; ECall (CrashLogger out_of_memory "The main process");
       ECall (crash_action (env true) out_of_memory)].
Proof.
  assert (crashguard guarded = true) as H3 by reflexivity.
  assert (logger_fault (env true) (deliver_all (env true) [] guarded_world) out_of_memory
          = None) as H4 by (vm_compute; reflexivity).
  split; [exact guarded_world_run|]. split; [exact guarded_world_Config|].
  split; [exact H3|]. split; [exact H4|].
  exact (proj1 (proj1 (proj2 (uncaught_fault_classified (env true) _ _ _ _ []
                                out_of_memory guarded_world_run guarded_world_Config H3))
                  H4)).
Defined.

(** C3 as stated fails: on a first run in a directory that cannot be
    written, the copy fails with [EACCES], which is not an absent file; the
    load does not throw that error again but [MODULE_NOT_FOUND], and so
    does the script. *)
Lemma failed_copy_not_rethrown :
  files (fresh first_run_disk {["sockjs"]}) !! config_path = None
  ∧ call_fault read_only (WriteFileSync config_path) = Some access_error
  ∧ fst (run (load_config read_only) (fresh first_run_disk {["sockjs"]}))
    = Throw (module_not_found config_request)
  ∧ fst (run (startup read_only) (fresh first_run_disk {["sockjs"]}))
    = Throw (module_not_found config_request)
  ∧ module_not_found config_request ≠ access_error.
Proof.
  do 4 (split; [vm_compute; reflexivity|]). discriminate.
Qed.

(** C3 on a disk that has the template only, and with a resolver that is
    denied access. *)
Lemma first_load_witness :
  ((∀ e, resolve_fault (env true) config_request = Some e → err_code e ≠ MODULE_NOT_FOUND)
   ∧ require_cache (fresh first_run_disk ∅) !! config_path = None
   ∧ globals (snd (run (load_config (env true)) (fresh first_run_disk ∅))) !! "Config"
     = Some (VConfig plain))
  ∧ ((∀ e, resolve_fault denied config_request = Some e → err_code e ≠ MODULE_NOT_FOUND)
     ∧ fst (run (load_config denied) (fresh (disk "plain") ∅)) = Throw access_error).
Proof.
  assert (∀ e, resolve_fault (env true) config_request = Some e
               → err_code e ≠ MODULE_NOT_FOUND) as H1 by (intros e; discriminate).
  assert (require_cache (fresh first_run_disk ∅) !! config_path = None) as H2
    by (vm_compute; reflexivity).
  assert (∀ e, resolve_fault denied config_request = Some e
               → err_code e ≠ MODULE_NOT_FOUND) as H3
    by (intros e; vm_compute; intros [= <-]; discriminate).
  assert (require_cache (fresh (disk "plain") ∅) !! config_path = None) as H4
    by (vm_compute; reflexivity).
  split.
  - split; [exact H1|]. split; [exact H2|].
    refine (proj2 (proj2 (proj1 (first_load (env true) _ H1 H2) "plain" plain _ _))).
    + do 4 (split; [vm_compute; reflexivity|]). vm_compute. reflexivity.
    + vm_compute. reflexivity.
  - split; [exact H3|].
    refine (proj1 (proj1 (proj2 (proj2 (first_load denied _ H3 H4))) access_error _)).
    vm_compute. reflexivity.
Defined.

(** C4 on a file edited into a text that evaluates. *)
Lemma reload_iff_newer_witness :
  run (startup (env true)) (fresh (disk "guarded") {["sockjs"]}) = (Ok tt, guarded_world)
  ∧ globals guarded_world !! "Config" = Some (VConfig guarded)
  ∧ watchconfig guarded = true
  ∧ globals (snd (deliver (env true) (FileChanged (Stats 5) (Stats 3))
                    (deliver_all (env true) [Edit config_path "remote"] guarded_world)))
      !! "Config" = Some (VConfig remote).
Proof.
  assert (watchconfig guarded = true) as H3 by reflexivity.
  split; [exact guarded_world_run|]. split; [exact guarded_world_Config|].
  split; [exact H3|].
  refine (proj1 (proj1 (proj2 (reload_iff_newer (env true) _ _ _ _
                                 [Edit config_path "remote"] (Stats 5) (Stats 3)
                                 guarded_world_run guarded_world_Config H3))
                   _ (VConfig remote) _)).
  - reflexivity.
  - vm_compute. reflexivity.
Defined.

(** C5 as stated fails: without the crash guard an exit with the code 1
    finds no listener and nothing is logged. *)
Lemma exit_without_crashguard :
  run (startup (env true)) (fresh (disk "plain") {["sockjs"]}) = (Ok tt, plain_world)
  ∧ deliver (env true) (Exiting 1) plain_world = (NoListener, plain_world)
  ∧ added plain_world (snd (deliver (env true) (Exiting 1) plain_world)) = [].
Proof.
  split; [exact plain_world_run|]. split; vm_compute; reflexivity.
Qed.

(** C5 with the crash guard, on the exit code 1. *)
Lemma exit_diagnostics_witness :
  run (startup (env true)) (fresh (disk "guarded") {["sockjs"]}) = (Ok tt, guarded_world)
  ∧ globals guarded_world !! "Config" = Some (VConfig guarded)
  ∧ crashguard guarded = true
  ∧ added (deliver_all (env true) [] guarded_world)
      (snd (deliver (env true) (Exiting 1) (deliver_all (env true) [] guarded_world)))
    = exit_diagnostic 1.
Proof.
  assert (crashguard guarded = true) as H3 by reflexivity.
  split; [exact guarded_world_run|]. split; [exact guarded_world_Config|].
  split; [exact H3|].
  refine (proj1 (proj2 (exit_diagnostics (env true) _ _ _ _ [] 1
                          guarded_world_run guarded_world_Config H3)) _).
  discriminate.
Defined.

(** C6 as stated fails: with the crash guard enabled, a rejection is
    thrown again, classified and reported as a crash; the handler returns
    and the process goes on serving: a later [listen] is answered. *)
Lemma rejection_contained :
  run (startup (env true)) (fresh (disk "guarded") {["sockjs"]}) = (Ok tt, guarded_world)
  ∧ crashguard guarded = true
  ∧ keeps_running (fst (deliver (env true) (Rejected parse_error) guarded_world))
  ∧ added guarded_world (snd (deliver (env true) (Rejected parse_error) guarded_world))
    = [ERequire "./crashlogger"; ECall (CrashLogger parse_error "The main process");
       ECall (ReportCrash parse_error)]
  ∧ fst (deliver (env true) (Listen (Given "8001") Undefined Undefined)
           (snd (deliver (env true) (Rejected parse_error) guarded_world)))
    = Returned.
Proof.
  split; [exact guarded_world_run|]. split; [reflexivity|].
  split; [vm_compute; reflexivity|]. split; vm_compute; reflexivity.
Qed.

(** C6 with the crash guard. *)
Lemma rejection_rethrown_witness :
  run (startup (env true)) (fresh (disk "guarded") {["sockjs"]}) = (Ok tt, guarded_world)
  ∧ globals guarded_world !! "Config" = Some (VConfig guarded)
  ∧ crashguard guarded = true
  ∧ deliver (env true) (Rejected parse_error) (deliver_all (env true) [] guarded_world)
    = deliver (env true) (Uncaught parse_error) (deliver_all (env true) [] guarded_world).
Proof.
  assert (crashguard guarded = true) as H3 by reflexivity.
  split; [exact guarded_world_run|]. split; [exact guarded_world_Config|].
  split; [exact H3|].
  exact (proj1 (proj2 (rejection_rethrown (env true) _ _ _ _ [] parse_error
                         guarded_world_run guarded_world_Config H3))).
Defined.

(** C7 as stated fails: the installation leaves ['sockjs'] unresolved, the
    check completes all the same, and the script goes on to spawn the
    [Verifier] workers before [./sockets] fails to load. *)
Lemma install_not_rechecked :
  sockjs_resolves stubborn (fresh (disk "plain") ∅) = false
  ∧ fst (run (check_dependencies stubborn) (fresh (disk "plain") ∅)) = Ok tt
  ∧ sockjs_resolves stubborn (snd (run (check_dependencies stubborn) (fresh (disk "plain") ∅)))
    = false
  ∧ fst (run (startup stubborn) (fresh (disk "plain") ∅)) = Throw (module_not_found "sockjs")
  ∧ ECall VerifierSpawn ∈ trace (started stubborn (disk "plain") ∅).
Proof.
  do 4 (split; [vm_compute; reflexivity|]).
  apply (bool_decide_unpack _). vm_compute. exact I.
Qed.

(** C8 as stated fails: the [Verifier] workers are spawned before the crash
    guard is installed. *)
Lemma verifier_spawned_before_crashguard :
  run (startup (env true)) (fresh (disk "guarded") {["sockjs"]}) = (Ok tt, guarded_world)
  ∧ precedes (ECall VerifierSpawn) (ECall (ProcessOn "uncaughtException"))
      (trace guarded_world).
Proof.
  split; [exact guarded_world_run|].
  exists (take 14 (trace guarded_world)), (take 3 (drop 15 (trace guarded_world))),
    (drop 19 (trace guarded_world)).
  vm_compute. reflexivity.
Qed.

(** C8 on the guarded configuration. *)
Lemma startup_order_witness :
  run (startup (env true)) (fresh (disk "guarded") {["sockjs"]}) = (Ok tt, guarded_world)
  ∧ globals guarded_world !! "Config" = Some (VConfig guarded)
  ∧ trace guarded_world
    = dependency_events (sockjs_resolves (env true) (fresh (disk "guarded") {["sockjs"]}))
      ++ config_events (disk "guarded")
      ++ watch_events guarded ++ globals_events guarded ++ crashguard_events guarded
      ++ network_events (env true) ++ final_events.
Proof.
  split; [exact guarded_world_run|]. split; [exact guarded_world_Config|].
  exact (proj1 (startup_order (env true) _ _ _ _ guarded_world_run guarded_world_Config)).
Defined.

(** C9 as stated fails: the script run a second time in the world it left
    completes, it is not rejected. *)
Lemma second_run_accepted :
  run (startup (env true)) (fresh (disk "guarded") {["sockjs"]}) = (Ok tt, guarded_world)
  ∧ fst (run (startup (env true)) guarded_world) = Ok tt.
Proof. split; [exact guarded_world_run|]. vm_compute. reflexivity. Qed.

(** C9 on the guarded configuration. *)
Lemma subsystems_once_in_order_witness :
  run (startup (env true)) (fresh (disk "guarded") {["sockjs"]}) = (Ok tt, guarded_world)
  ∧ globals guarded_world !! "Config" = Some (VConfig guarded)
  ∧ requires_of (trace guarded_world) = subsystem_requests guarded.
Proof.
  split; [exact guarded_world_run|]. split; [exact guarded_world_Config|].
  exact (proj1 (subsystems_once_in_order (env true) _ _ _ _
                  guarded_world_run guarded_world_Config)).
Defined.

(** C10 after a reload that has enabled [remoteladder]: [Config] has the
    option, [Ladders] is still the local module. *)
Lemma reload_frame_witness :
  run (startup (env true)) (fresh (disk "guarded") {["sockjs"]}) = (Ok tt, guarded_world)
  ∧ globals guarded_world !! "Config" = Some (VConfig guarded)
  ∧ globals (deliver_all (env true) edited_inputs guarded_world) !! "Config"
    = Some (VConfig remote)
  ∧ globals (deliver_all (env true) edited_inputs guarded_world) !! "Ladders"
    = Some (VModule (ladders_request guarded)).
Proof.
  split; [exact guarded_world_run|]. split; [exact guarded_world_Config|].
  split; [vm_compute; reflexivity|].
  exact (proj2 (proj2 (proj2 (proj2 (proj2
           (reload_frame (env true) _ _ _ _ edited_inputs (Stats 9) (Stats 5)
              guarded_world_run guarded_world_Config)))))).
Defined.

(** * Further properties of the script *)

(** X1: a configuration file that exists and evaluates is loaded as it is:
    [Config] is bound to its exports, which are cached, and nothing is
    logged, read from the template or written. *)
Theorem load_existing_config E w text c :
  files w !! config_path = Some text →
  resolve_fault E config_request = None →
  require_cache w !! config_path = None →
  eval_config E text = inr c →
  run (load_config E) w
  = (Ok tt, set_globals <["Config" := VConfig c]>
              (set_require_cache <[config_path := VConfig c]> w)).
Proof.
  intros Hf Hrf Hcache He.
  unfold load_config, try_finally, try_catch, require_config, resolve_config.
  unfold_monad. rewrite Hrf. repeat (world_simpl; rewrite ?Hf, ?Hcache, ?He). done.
Qed.

(** X2: with neither the configuration file nor the template, the load
    logs that it creates the file, creates none, and throws the
    MODULE_NOT_FOUND error of the [require] in the [finally] block, which
    replaces the ENOENT error of reading the template. *)
Theorem load_without_template E w :
  files w !! config_path = None →
  files w !! example_path = None →
  resolve_fault E config_request = None →
  run (load_config E) w
  = (Throw (module_not_found config_request),
     emit (ELog "config.js doesn't exist - creating one with default settings...") w).
Proof.
  intros Hf Hx Hrf.
  unfold load_config, try_finally, try_catch, require_config, resolve_config,
    fs_readFileSync, fs_writeFileSync.
  unfold_monad. rewrite Hrf. world_simpl. rewrite Hf. world_simpl.
  cbn [err_code module_not_found].
  change (negb (String.eqb MODULE_NOT_FOUND MODULE_NOT_FOUND)) with false.
  repeat (world_simpl; rewrite ?Hx, ?Hf). done.
Qed.

Lemma deliver_unwatched E i w :
  config_path ∉ watched w →
  globals (snd (deliver E i w)) !! "Config" = globals w !! "Config".
Proof.
  intros Hw. destruct i; cbn [deliver]; unfold deliver_uncaught, outcome_of,
    on_uncaughtException, on_unhandledRejection, on_exit, app_listen, method,
    classify, require_module, extern.
  2: by rewrite bool_decide_eq_false_2.
  all: unfold_monad; repeat case_match; simplify_eq; world_simpl; done.
Qed.

Lemma deliver_all_cons E i inputs w :
  deliver_all E (i :: inputs) w = deliver_all E inputs (snd (deliver E i w)).
Proof. done. Qed.

Lemma deliver_all_app E l1 l2 w :
  deliver_all E (l1 ++ l2) w = deliver_all E l2 (deliver_all E l1 w).
Proof. unfold deliver_all. apply foldl_app. Qed.

Lemma deliver_all_unwatched E inputs w :
  config_path ∉ watched w →
  globals (deliver_all E inputs w) !! "Config" = globals w !! "Config".
Proof.
  revert w. induction inputs as [|i inputs IH]; intros w Hw; [done|].
  rewrite deliver_all_cons, IH, deliver_unwatched; [done..|].
  by destruct (deliver_same_process E i w) as (_ & -> & _).
Qed.

(** X3: with [watchconfig] disabled at startup no watcher is registered:
    whatever happens afterwards, a change of the file finds no listener and
    [Config] stays the snapshot loaded at startup. *)
Theorem no_watch_no_reload E fs pkgs w1 c inputs curr prev :
  run (startup E) (fresh fs pkgs) = (Ok tt, w1) →
  globals w1 !! "Config" = Some (VConfig c) →
  watchconfig c = false →
  let w := deliver_all E inputs w1 in
  globals w !! "Config" = Some (VConfig c)
  ∧ deliver E (FileChanged curr prev) w = (NoListener, w).
Proof.
  intros Hrun Hc Hwc w. pose proof (startup_booted E _ _ _ _ Hrun Hc) as B.
  split.
  - subst w. rewrite deliver_all_unwatched; [done|].
    rewrite (boot_watched _ _ _ _ _ B), Hwc. apply not_elem_of_nil.
  - cbn [deliver]. rewrite bool_decide_eq_false_2; [done|].
    subst w. rewrite (running_watched E _ _ _ _ B), Hwc. apply not_elem_of_nil.
Qed.

Lemma reparse_edit E w text :
  resolve_fault E config_request = None →
  reparse E (snd (deliver E (Edit config_path text) w))
  = match eval_config E text with
    | inl e => Throw e
    | inr c => Ok (VConfig c)
    end.
Proof.
  intros Hrf. apply reparse_text; [done|]. cbn [deliver]. world_simpl.
  apply lookup_insert_eq.
Qed.

(** X4: with [watchconfig] enabled, writing the configuration file and
    firing the watcher with a newer modification time binds [Config] to the
    evaluation of the text written when it evaluates, and leaves [Config]
    as it was when it does not. *)
Theorem edit_then_reload E fs pkgs w1 c inputs text curr prev :
  run (startup E) (fresh fs pkgs) = (Ok tt, w1) →
  globals w1 !! "Config" = Some (VConfig c) →
  watchconfig c = true →
  mtime prev < mtime curr →
  let w := deliver_all E inputs w1 in
  let w' := deliver_all E [Edit config_path text; FileChanged curr prev] w in
  globals w' !! "Config"
  = match eval_config E text with
    | inl _ => globals w !! "Config"
    | inr c' => Some (VConfig c')
    end.
Proof.
  intros Hrun Hc Hwc Hlt w w'. pose proof (startup_booted E _ _ _ _ Hrun Hc) as B.
  pose proof (reparse_edit E w text (boot_resolver _ _ _ _ _ B)) as Hq.
  subst w'. rewrite !deliver_all_cons. cbn [deliver_all foldl].
  set (w2 := snd (deliver E (Edit config_path text) w)) in *.
  assert (config_path ∈ watched w2) as Hw.
  { subst w2. cbn [deliver]. world_simpl. subst w.
    rewrite (running_watched E _ _ _ _ B), Hwc. by constructor. }
  rewrite deliver_FileChanged_watched by done.
  destruct (eval_config E text) as [e|c'].
  - rewrite (on_config_change_throws E curr prev w2 e Hlt Hq).
    destruct (run (require_config E) _) as [r w3] eqn:Hr.
    apply require_config_frame in Hr as (Hg & _). unfold outcome_of. world_simpl.
    by rewrite Hg.
  - destruct (on_config_change_reloads E curr prev w2 _ Hlt Hq) as (w3 & -> & Hg & _).
    unfold outcome_of. world_simpl. by rewrite Hg, lookup_insert_eq.
Qed.

(** X5: when [Users.cacheGroupData] throws during a reload, [Config] is
    already bound to the fresh exports and stays so; the listener returns
    and logs the failure as an error of the reload. *)
Theorem reload_notifier_failure E fs pkgs w1 c inputs curr prev v e :
  run (startup E) (fresh fs pkgs) = (Ok tt, w1) →
  globals w1 !! "Config" = Some (VConfig c) →
  watchconfig c = true →
  mtime prev < mtime curr →
  let w := deliver_all E inputs w1 in
  reparse E w = Ok v →
  call_fault E CacheGroupData = Some e →
  let w' := snd (deliver E (FileChanged curr prev) w) in
  fst (deliver E (FileChanged curr prev) w) = Returned
  ∧ globals w' !! "Config" = Some v
  ∧ added w w' = [ECall CacheGroupData;
                  ELog ("Error reloading config/config.js: " +:+ err_stack e)].
Proof.
  intros Hrun Hc Hwc Hlt w Hq He w'. pose proof (startup_booted E _ _ _ _ Hrun Hc) as B.
  assert (config_path ∈ watched w) as Hw.
  { subst w. rewrite (running_watched E _ _ _ _ B), Hwc. by constructor. }
  assert (is_Some (globals w !! "Users")) as Hu.
  { subst w. rewrite (running_global E _ _ _ _ B inputs "Users" (VModule "./users")); [done|].
    unfold subsystem_bindings. by repeat constructor. }
  subst w'. rewrite deliver_FileChanged_watched by done.
  destruct (on_config_change_reloads E curr prev w v Hlt Hq) as (w2 & -> & Hg & Ht).
  unfold outcome_of. world_simpl. rewrite Hg, lookup_insert_eq.
  split; [done|]. split; [done|]. apply added_app.
  by rewrite bool_decide_eq_true_2, He in Ht.
Qed.

Lemma deliver_cache_agrees E i w : cache_agrees w → cache_agrees (snd (deliver E i w)).
Proof.
  unfold cache_agrees. intros Hw.
  destruct i; cbn [deliver]; unfold deliver_uncaught, outcome_of, on_config_change,
    on_uncaughtException, on_unhandledRejection, on_exit, app_listen, method,
    classify, require_module, require_config, resolve_config, extern.
  all: unfold_monad; repeat case_match; simplify_eq; world_simpl; try done.
  all: rewrite ?lookup_insert_eq, ?lookup_delete_eq,
         ?(lookup_insert_ne _ "./crashlogger" config_path) by done; auto.
  all: match goal with H : delete _ _ !! _ = Some _ |- _ =>
         by rewrite lookup_delete_eq in H end.
Qed.

Lemma deliver_all_cache_agrees E inputs w :
  cache_agrees w → cache_agrees (deliver_all E inputs w).
Proof.
  revert w. induction inputs as [|i inputs IH]; intros w Hw; [done|].
  rewrite deliver_all_cons. by apply IH, deliver_cache_agrees.
Qed.

(** X7: after the script, whatever happens, the exports that
    [require.cache] holds for the configuration file are those bound to
    [Config], or there are none (after a reload that failed). *)
Theorem cache_never_stale E fs pkgs w1 inputs :
  run (startup E) (fresh fs pkgs) = (Ok tt, w1) →
  cache_agrees (deliver_all E inputs w1).
Proof.
  intros [c B]%startup_ok. apply deliver_all_cache_agrees. right.
  destruct (booted_ready E _ _ _ _ B) as (-> & -> & _). done.
Qed.

(** X8: the crash guard and the watcher are decided once, by the
    configuration loaded at startup: no later input, a reload that changes
    [crashguard] or [watchconfig] included, registers or removes a listener
    of the process or a watcher, nor rebinds a global other than [Config]. *)
Theorem guard_decided_at_startup E fs pkgs w1 c inputs :
  run (startup E) (fresh fs pkgs) = (Ok tt, w1) →
  globals w1 !! "Config" = Some (VConfig c) →
  let w := deliver_all E inputs w1 in
  listeners w = crashguard_listeners c
  ∧ watched w = (if watchconfig c then [config_path] else [])
  ∧ exports_listen w = true
  ∧ ∀ name, name ≠ "Config" → globals w !! name = globals w1 !! name.
Proof.
  intros Hrun Hc w. pose proof (startup_booted E _ _ _ _ Hrun Hc) as B.
  split; [apply (running_listeners E _ _ _ _ B)|].
  split; [apply (running_watched E _ _ _ _ B)|].
  split; [apply (running_exports E _ _ _ _ B)|].
  by destruct (deliver_all_same_process E inputs w1) as (_ & _ & _ & _ & H).
Qed.

Lemma method_bound E n k w :
  is_Some (globals w !! n) →
  run (method E n k) w
  = (match call_fault E k with Some e => Throw e | None => Ok tt end, emit (ECall k) w).
Proof.
  intros [v Hv]. unfold method, extern. unfold_monad. rewrite Hv.
  by destruct (call_fault E k).
Qed.

(** X9: required as a module ([require.main !== module]) the script calls
    [Sockets.listen] nowhere; [exports.listen], whenever it is called
    afterwards, passes its three arguments on to [Sockets.listen] and does
    nothing else. *)
Theorem listen_when_asked E fs pkgs w1 c inputs port bindAddress workerCount :
  run (startup E) (fresh fs pkgs) = (Ok tt, w1) →
  globals w1 !! "Config" = Some (VConfig c) →
  let w := deliver_all E inputs w1 in
  let w' := snd (deliver E (Listen port bindAddress workerCount) w) in
  (is_main E = false → ∀ p b n, ECall (SocketsListen p b n) ∉ trace w1)
  ∧ fst (deliver E (Listen port bindAddress workerCount) w) ≠ NoListener
  ∧ added w w' = [ECall (SocketsListen port bindAddress workerCount)].
Proof.
  intros Hrun Hc w w'. pose proof (startup_booted E _ _ _ _ Hrun Hc) as B.
  split.
  - intros Hmain p b n. rewrite (boot_trace _ _ _ _ _ B).
    unfold boot_events, network_events. rewrite Hmain.
    rewrite !not_elem_of_app. repeat split.
    + unfold dependency_events. destruct (sockjs_resolves E _); cbn;
        rewrite ?not_elem_of_cons; repeat split; try done; apply not_elem_of_nil.
    + unfold config_events. destruct (fs !! config_path); cbn;
        rewrite ?not_elem_of_cons; repeat split; try done; apply not_elem_of_nil.
    + unfold watch_events. destruct (watchconfig c); cbn;
        rewrite ?not_elem_of_cons; repeat split; try done; apply not_elem_of_nil.
    + unfold globals_events. rewrite !not_elem_of_cons. repeat split; try done.
      apply not_elem_of_nil.
    + unfold crashguard_events, crashguard_listeners. destruct (crashguard c); cbn;
        rewrite ?not_elem_of_cons; repeat split; try done; apply not_elem_of_nil.
    + rewrite !not_elem_of_cons. repeat split; try done. apply not_elem_of_nil.
    + unfold final_events. rewrite !not_elem_of_cons. repeat split; try done.
      apply not_elem_of_nil.
  - assert (deliver E (Listen port bindAddress workerCount) w
            = outcome_of (match call_fault E (SocketsListen port bindAddress workerCount) with
                          | Some e => Throw e | None => Ok tt end,
                          emit (ECall (SocketsListen port bindAddress workerCount)) w)) as Hd.
    { cbn [deliver]. subst w. rewrite (running_exports E _ _ _ _ B). unfold app_listen.
      rewrite method_bound; [done|].
      rewrite (running_global E _ _ _ _ B inputs "Sockets" (VModule "./sockets")); [done|].
      unfold subsystem_bindings. by repeat constructor. }
    subst w'. rewrite Hd. unfold outcome_of.
    destruct (call_fault E _); (split; [done|]); by apply added_app.
Qed.

Lemma exitCodes_absent code :
  ¬ (1 ≤ code ≤ 12 ∨ code = 130) → exitCodes !! code = None.
Proof.
  intros Hn. unfold exitCodes. apply not_elem_of_list_to_map_1. cbn.
  rewrite !not_elem_of_cons. repeat split; try lia. apply not_elem_of_nil.
Qed.

(** X10: the exit codes of the table are 1 to 12 and 130; the diagnostic
    is ['Signal Exit'] exactly for the codes above 128 other than 130, and
    ['Unused Error Code'] exactly for the codes up to 0 and from 13 to 128. *)
Theorem exit_info_ranges code :
  (is_Some (exitCodes !! code) ↔ 1 ≤ code ≤ 12 ∨ code = 130)
  ∧ (exit_info code = "Signal Exit" ↔ 128 < code ∧ code ≠ 130)
  ∧ (exit_info code = "Unused Error Code" ↔ code ≤ 0 ∨ 13 ≤ code ≤ 128).
Proof.
  destruct (decide (1 ≤ code ≤ 12 ∨ code = 130)) as [Hin|Hout].
  - assert (code = 1 ∨ code = 2 ∨ code = 3 ∨ code = 4 ∨ code = 5 ∨ code = 6 ∨ code = 7
            ∨ code = 8 ∨ code = 9 ∨ code = 10 ∨ code = 11 ∨ code = 12 ∨ code = 130)
      as Hc by lia.
    destruct_or!; subst code.
    all: split; [split; [intros _; lia|intros _; eexists; vm_compute; reflexivity]|].
    all: set (s := exit_info _); vm_compute in s; subst s.
    all: split; (split; [intros [=]|lia]).
  - pose proof (exitCodes_absent code Hout) as Hn.
    unfold exit_info. rewrite Hn. cbn [truthy].
    split; [split; [by intros [? [=]]|done]|].
    destruct (Z.gtb_spec code 128); split; (split; [try done; lia|try lia]); try done.
Qed.

(** ** Where a failing script stops *)

Section Emits.
Context (E : Env) (c : config).

Lemma emits_bind {A B} (m : M A) (k : A → M B) L1 L2 :
  emits c m L1 → (∀ a, emits c (k a) L2) → emits c (m ≫= k) (L1 ++ L2).
Proof.
  intros Hm Hk w r w' Hc. unfold run, mbind, M_bind, bind.
  destruct (m w) as [[a|e] w1] eqn:Hr.
  - destruct (Hm w _ _ Hc Hr) as (Hc1 & l1 & Ht1 & _ & Hok). rewrite (Hok a eq_refl) in Ht1.
    intros Hr2. destruct (Hk a w1 _ _ Hc1 Hr2) as (Hc2 & l2 & Ht2 & [k2 ->] & Hok2).
    split; [done|]. exists (L1 ++ l2). split; [by rewrite Ht2, Ht1, <- app_assoc|].
    split; [exists k2; by rewrite <- app_assoc|].
    intros b Hb. specialize (Hok2 b Hb).
    apply (f_equal length) in Hok2. rewrite length_app in Hok2.
    destruct k2; [by rewrite app_nil_r|cbn in Hok2; lia].
  - destruct (Hm w _ _ Hc Hr) as (Hc1 & l1 & Ht1 & [k1 ->] & _). intros [= <- <-].
    split; [done|]. exists l1. split; [done|].
    split; [exists (k1 ++ L2); by rewrite <- app_assoc|done].
Qed.

Lemma emits_eq {A} (m : M A) L L' : emits c m L → L = L' → emits c m L'.
Proof. by intros H <-. Qed.

Lemma emits_nothing {A} (m : M A) :
  (∀ w r w', run m w = (r, w') → globals w' = globals w ∧ trace w' = trace w) →
  emits c m [].
Proof.
  intros Hm w r w' Hc Hr. destruct (Hm _ _ _ Hr) as [Hg Ht]. rewrite Hg.
  split; [done|]. exists []. rewrite Ht, app_nil_r. split; [done|]. by split.
Qed.

Lemma emits_modify f :
  (∀ w, globals (f w) = globals w ∧ trace (f w) = trace w) → emits c (modify f) [].
Proof. intros Hf. apply emits_nothing. intros w r w' [= <- <-]. apply Hf. Qed.

Lemma emits_ret {A} (a : A) : emits c (ret a) [].
Proof. apply emits_nothing. by intros w r w' [= <- <-]. Qed.

Lemma emits_get_global n : emits c (get_global n) [].
Proof.
  apply emits_nothing. intros w r w'. unfold_monad.
  by destruct (globals w !! n); intros [= <- <-].
Qed.

Lemma emits_extern k : emits c (extern E k) [ECall k].
Proof.
  intros w r w' Hc. unfold extern. unfold_monad. world_simpl.
  destruct (call_fault E k); intros [= <- <-]; (split; [done|]);
    exists [ECall k]; by repeat split.
Qed.

Lemma emits_require_module r : emits c (require_module E r) [ERequire r].
Proof.
  intros w r0 w' Hc. unfold require_module. unfold_monad. world_simpl.
  repeat case_match; intros [= <- <-]; (split; [done|]);
    exists [ERequire r]; by repeat split.
Qed.

Lemma emits_set_global n v : n ≠ "Config" → emits c (set_global n v) [].
Proof.
  intros Hn w r w' Hc [= <- <-]. world_simpl. rewrite lookup_insert_ne by done.
  split; [done|]. exists []. rewrite app_nil_r. by repeat split.
Qed.

Lemma emits_get_Config {B} (k : config → M B) L :
  emits c (k c) L → emits c (get_Config ≫= k) L.
Proof.
  intros Hk w r w' Hc. rewrite (bind_run _ _ _ _ _ (get_Config_run w c Hc)).
  by apply Hk.
Qed.

Lemma emits_define n r : n ≠ "Config" → emits c (define_global E n r) [ERequire r].
Proof.
  intros Hn. unfold define_global.
  eapply emits_eq; [apply emits_bind; [apply emits_require_module|]|done].
  intros v. by apply emits_set_global.
Qed.

Lemma emits_method n k : emits c (method E n k) [ECall k].
Proof.
  unfold method.
  eapply emits_eq; [apply emits_bind; [apply emits_get_global|]|done].
  intros v. apply emits_extern.
Qed.

Lemma emits_when b m L : emits c m L → emits c (when b m) (if b then L else []).
Proof. intros Hm. destruct b; [done|apply emits_ret]. Qed.

Lemma emits_resolve_config {B} (k : string → M B) L :
  emits c (k config_path) L → emits c (resolve_config E ≫= k) L.
Proof.
  intros Hk w r w' Hc. unfold resolve_config. unfold_monad.
  destruct (resolve_fault E config_request).
  { intros [= <- <-]. split; [done|]. exists []. rewrite app_nil_r.
    split; [done|]. split; [by exists L|done]. }
  world_simpl. destruct (files w !! config_path).
  - by apply Hk.
  - intros [= <- <-]. split; [done|]. exists []. rewrite app_nil_r.
    split; [done|]. split; [by exists L|done].
Qed.

Ltac emits_step :=
  first
    [ apply emits_define; done
    | apply emits_method
    | apply emits_extern
    | apply emits_require_module
    | apply emits_set_global; done
    | apply emits_get_global
    | apply emits_resolve_config
    | apply emits_get_Config
    | apply emits_when
    | apply emits_modify; done
    | apply emits_bind; [|intros ?] ].

Lemma emits_after_config : emits c (after_config E) (boot_events E c).
Proof.
  unfold after_config, watch_config, setup_globals, define_Db, define_toId,
    define_Ladders, install_crashguard, process_on, start_network, last_global,
    start_repl.
  eapply emits_eq; [repeat emits_step|].
  unfold boot_events, watch_events, globals_events, crashguard_events,
    crashguard_listeners, network_events, final_events.
  by destruct (watchconfig c), (crashguard c), (is_main E).
Qed.

End Emits.

Lemma requires_of_boot_events E c : requires_of (boot_events E c) = subsystem_requests c.
Proof.
  unfold boot_events, watch_events, crashguard_events, crashguard_listeners,
    network_events.
  by destruct (watchconfig c), (crashguard c), (is_main E).
Qed.

Lemma requires_of_prefix l L : l `prefix_of` L → requires_of l `prefix_of` requires_of L.
Proof. intros [k ->]. rewrite requires_of_app. by eexists. Qed.

Lemma check_dependencies_any E w r w' :
  run (check_dependencies E) w = (r, w') →
  globals w' = globals w ∧ requires_of (trace w') = requires_of (trace w).
Proof.
  unfold check_dependencies, resolve_package, extern. unfold_monad.
  repeat case_match; simplify_eq; world_simpl; intros [= <- <-]; world_simpl;
    rewrite <- ?app_assoc, ?requires_of_app, ?app_nil_r; done.
Qed.

Lemma load_config_throws E w e w' :
  run (load_config E) w = (Throw e, w') →
  globals w' = globals w ∧ requires_of (trace w') = requires_of (trace w).
Proof.
  unfold load_config, try_finally, try_catch, require_config, resolve_config,
    fs_readFileSync, fs_writeFileSync. unfold_monad.
  repeat case_match; simplify_eq; world_simpl; intros [= <- <-]; world_simpl;
    rewrite <- ?app_assoc, ?requires_of_app, ?app_nil_r; try done; congruence.
Qed.

Lemma requires_of_dependency_events b : requires_of (dependency_events b) = [].
Proof. by destruct b. Qed.

Lemma requires_of_config_events fs : requires_of (config_events fs) = [].
Proof. unfold config_events. by destruct (fs !! config_path). Qed.

(** X11: the script stops at its first failure.  When it ends without
    [Config] bound, no subsystem was required; when it ends, completed or
    not, with [Config] bound to [c], its effects after the dependency check
    and the configuration load are an initial part of those of a complete
    run, so the subsystems required are an initial part of the list in the
    order of the source. *)
Theorem startup_stops_at_failure E fs pkgs c :
  let r := fst (run (startup E) (fresh fs pkgs)) in
  let w := snd (run (startup E) (fresh fs pkgs)) in
  (globals w !! "Config" = None → requires_of (trace w) = [])
  ∧ (globals w !! "Config" = Some (VConfig c) →
     ∃ l, trace w = dependency_events (sockjs_resolves E (fresh fs pkgs))
                    ++ config_events fs ++ l
          ∧ l `prefix_of` boot_events E c
          ∧ requires_of (trace w) `prefix_of` subsystem_requests c
          ∧ (r = Ok tt → l = boot_events E c)).
Proof.
  intros r w. subst r w. unfold startup.
  destruct (run (check_dependencies E) (fresh fs pkgs)) as [[[]|e1] w1] eqn:H1.
  2: { unfold run, mbind, M_bind, bind in *. rewrite H1.
       apply (check_dependencies_any E (fresh fs pkgs)) in H1 as [Hg Ht]. cbn [fst snd].
       rewrite Hg, Ht. unfold fresh. world_simpl. split; [done|].
       by rewrite lookup_empty. }
  rewrite (seq_run _ _ _ _ H1).
  pose proof (check_dependencies_any E _ _ _ H1) as [Hg1 Hq1].
  apply check_dependencies_ok in H1 as [Hw1 _].
  assert (trace w1 = dependency_events (sockjs_resolves E (fresh fs pkgs))
          ∧ files w1 = fs ∧ require_cache w1 = ∅) as (Ht1 & Hf1 & Hc1).
  { rewrite Hw1. by destruct (sockjs_resolves E _). }
  clear Hw1.
  destruct (run (load_config E) w1) as [[[]|e2] w2] eqn:H2.
  2: { unfold run, mbind, M_bind, bind in *. rewrite H2.
       apply load_config_throws in H2 as [Hg Ht]. cbn [fst snd].
       rewrite Hg, Hg1, Ht, Hq1. unfold fresh. world_simpl. split; [done|].
       by rewrite lookup_empty. }
  rewrite (seq_run _ _ _ _ H2).
  apply load_config_ok in H2
    as (c' & text & _ & _ & _ & _ & Ht2 & Hg2 & _); [|by rewrite Hc1].
  assert (globals w2 !! "Config" = Some (VConfig c')) as Hc2
    by (rewrite Hg2; apply lookup_insert_eq).
  destruct (run (after_config E) w2) as [r w3] eqn:H3.
  destruct (emits_after_config E c' w2 r w3 Hc2 H3) as (Hc3 & l & Ht3 & Hl & Hok).
  change (watch_config E ≫= _) with (after_config E). rewrite H3. cbn [fst snd].
  rewrite Hc3. split; [done|]. intros [= <-].
  exists l. rewrite Ht3, Ht2, Ht1, Hf1, <- app_assoc. split; [done|]. split; [done|].
  split; [|apply Hok].
  rewrite !requires_of_app, requires_of_dependency_events, requires_of_config_events.
  cbn [app]. rewrite <- requires_of_boot_events with (E := E).
  by apply requires_of_prefix.
Qed.



(** X13: with [crashguard] disabled at startup the script registers no
    listener of the process: whatever happens afterwards, an uncaught
    exception, an unhandled rejection and an exit find no listener and
    leave the world as it is. *)
Theorem no_guard_no_handlers E fs pkgs w1 c inputs err code :
  run (startup E) (fresh fs pkgs) = (Ok tt, w1) →
  globals w1 !! "Config" = Some (VConfig c) →
  crashguard c = false →
  let w := deliver_all E inputs w1 in
  deliver E (Uncaught err) w = (NoListener, w)
  ∧ deliver E (Rejected err) w = (NoListener, w)
  ∧ deliver E (Exiting code) w = (NoListener, w).
Proof.
  intros Hrun Hc Hcg w. pose proof (startup_booted E _ _ _ _ Hrun Hc) as B.
  assert (listeners w = []) as Hl.
  { subst w. rewrite (running_listeners E _ _ _ _ B). unfold crashguard_listeners.
    by rewrite Hcg. }
  cbn [deliver]. unfold deliver_uncaught. rewrite Hl.
  rewrite !bool_decide_eq_false_2 by apply not_elem_of_nil. done.
Qed.

(** ** Further properties on concrete worlds *)

Lemma library_world_run :
  run (startup (env false)) (fresh (disk "guarded") {["sockjs"]}) = (Ok tt, library_world).
Proof. vm_compute. reflexivity. Qed.

Lemma library_world_Config : globals library_world !! "Config" = Some (VConfig guarded).
Proof. vm_compute. reflexivity. Qed.

Lemma deaf_world_run :
  run (startup deaf) (fresh (disk "guarded") {["sockjs"]}) = (Ok tt, deaf_world).
Proof. vm_compute. reflexivity. Qed.

Lemma deaf_world_Config : globals deaf_world !! "Config" = Some (VConfig guarded).
Proof. vm_compute. reflexivity. Qed.

Lemma plain_world_Config : globals plain_world !! "Config" = Some (VConfig plain).
Proof. vm_compute. reflexivity. Qed.


(** X1 on a disk that has the configuration file. *)
Lemma load_existing_config_witness :
  files (fresh (disk "guarded") ∅) !! config_path = Some "guarded"
  ∧ resolve_fault (env true) config_request = None
  ∧ require_cache (fresh (disk "guarded") ∅) !! config_path = None
  ∧ eval_config (env true) "guarded" = inr guarded
  ∧ run (load_config (env true)) (fresh (disk "guarded") ∅)
    = (Ok tt, set_globals <["Config" := VConfig guarded]>
                (set_require_cache <[config_path := VConfig guarded]>
                   (fresh (disk "guarded") ∅))).
Proof.
  assert (files (fresh (disk "guarded") ∅) !! config_path = Some "guarded") as H1
    by (vm_compute; reflexivity).
  assert (resolve_fault (env true) config_request = None) as H2 by reflexivity.
  assert (require_cache (fresh (disk "guarded") ∅) !! config_path = None) as H3
    by (vm_compute; reflexivity).
  assert (eval_config (env true) "guarded" = inr guarded) as H4
    by (vm_compute; reflexivity).
  split; [exact H1|]. split; [exact H2|]. split; [exact H3|]. split; [exact H4|].
  exact (load_existing_config (env true) _ "guarded" guarded H1 H2 H3 H4).
Defined.

(** X2 on an empty disk. *)
Lemma load_without_template_witness :
  files (fresh ∅ ∅) !! config_path = None
  ∧ files (fresh ∅ ∅) !! example_path = None
  ∧ resolve_fault (env true) config_request = None
  ∧ run (load_config (env true)) (fresh ∅ ∅)
    = (Throw (module_not_found config_request),
       emit (ELog "config.js doesn't exist - creating one with default settings...")
         (fresh ∅ ∅)).
Proof.
  assert (files (fresh ∅ ∅) !! config_path = None) as H1 by (vm_compute; reflexivity).
  assert (files (fresh ∅ ∅) !! example_path = None) as H2 by (vm_compute; reflexivity).
  assert (resolve_fault (env true) config_request = None) as H3 by reflexivity.
  split; [exact H1|]. split; [exact H2|]. split; [exact H3|].
  exact (load_without_template (env true) _ H1 H2 H3).
Defined.

(** X3 on the plain configuration, after the file was edited. *)
Lemma no_watch_no_reload_witness :
  run (startup (env true)) (fresh (disk "plain") {["sockjs"]}) = (Ok tt, plain_world)
  ∧ globals plain_world !! "Config" = Some (VConfig plain)
  ∧ watchconfig plain = false
  ∧ globals (deliver_all (env true) edited_inputs plain_world) !! "Config"
    = Some (VConfig plain).
Proof.
  assert (watchconfig plain = false) as H3 by reflexivity.
  split; [exact plain_world_run|]. split; [exact plain_world_Config|].
  split; [exact H3|].
  exact (proj1 (no_watch_no_reload (env true) _ _ _ _ edited_inputs (Stats 9) (Stats 5)
                  plain_world_run plain_world_Config H3)).
Defined.

(** X4 on a text that enables [remoteladder]. *)
Lemma edit_then_reload_witness :
  run (startup (env true)) (fresh (disk "guarded") {["sockjs"]}) = (Ok tt, guarded_world)
  ∧ globals guarded_world !! "Config" = Some (VConfig guarded)
  ∧ watchconfig guarded = true
  ∧ mtime (Stats 3) < mtime (Stats 5)
  ∧ globals (deliver_all (env true) [Edit config_path "remote"; FileChanged (Stats 5) (Stats 3)]
               (deliver_all (env true) [] guarded_world)) !! "Config"
    = match eval_config (env true) "remote" with
      | inl _ => globals (deliver_all (env true) [] guarded_world) !! "Config"
      | inr c' => Some (VConfig c')
      end.
Proof.
  assert (watchconfig guarded = true) as H3 by reflexivity.
  assert (mtime (Stats 3) < mtime (Stats 5)) as H4 by reflexivity.
  split; [exact guarded_world_run|]. split; [exact guarded_world_Config|].
  split; [exact H3|]. split; [exact H4|].
  exact (edit_then_reload (env true) _ _ _ _ [] "remote" (Stats 5) (Stats 3)
           guarded_world_run guarded_world_Config H3 H4).
Defined.

(** X5 with a permission cache that fails to recompute. *)
Lemma reload_notifier_failure_witness :
  run (startup deaf) (fresh (disk "guarded") {["sockjs"]}) = (Ok tt, deaf_world)
  ∧ globals deaf_world !! "Config" = Some (VConfig guarded)
  ∧ watchconfig guarded = true
  ∧ mtime (Stats 3) < mtime (Stats 5)
  ∧ reparse deaf (deliver_all deaf [Edit config_path "remote"] deaf_world)
    = Ok (VConfig remote)
  ∧ call_fault deaf CacheGroupData = Some cache_error
  ∧ globals (snd (deliver deaf (FileChanged (Stats 5) (Stats 3))
                    (deliver_all deaf [Edit config_path "remote"] deaf_world)))
      !! "Config" = Some (VConfig remote).
Proof.
  assert (watchconfig guarded = true) as H3 by reflexivity.
  assert (mtime (Stats 3) < mtime (Stats 5)) as H4 by reflexivity.
  assert (reparse deaf (deliver_all deaf [Edit config_path "remote"] deaf_world)
          = Ok (VConfig remote)) as H5 by (vm_compute; reflexivity).
  assert (call_fault deaf CacheGroupData = Some cache_error) as H6 by reflexivity.
  split; [exact deaf_world_run|]. split; [exact deaf_world_Config|].
  split; [exact H3|]. split; [exact H4|]. split; [exact H5|]. split; [exact H6|].
  exact (proj1 (proj2 (reload_notifier_failure deaf _ _ _ _ [Edit config_path "remote"]
                         (Stats 5) (Stats 3) (VConfig remote) cache_error
                         deaf_world_run deaf_world_Config H3 H4 H5 H6))).
Defined.

(** X7 after a reload. *)
Lemma cache_never_stale_witness :
  run (startup (env true)) (fresh (disk "guarded") {["sockjs"]}) = (Ok tt, guarded_world)
  ∧ cache_agrees (deliver_all (env true) edited_inputs guarded_world).
Proof.
  split; [exact guarded_world_run|].
  exact (cache_never_stale (env true) _ _ _ edited_inputs guarded_world_run).
Defined.

(** X8 after a reload. *)
Lemma guard_decided_at_startup_witness :
  run (startup (env true)) (fresh (disk "guarded") {["sockjs"]}) = (Ok tt, guarded_world)
  ∧ globals guarded_world !! "Config" = Some (VConfig guarded)
  ∧ listeners (deliver_all (env true) edited_inputs guarded_world)
    = crashguard_listeners guarded.
Proof.
  split; [exact guarded_world_run|]. split; [exact guarded_world_Config|].
  exact (proj1 (guard_decided_at_startup (env true) _ _ _ _ edited_inputs
                  guarded_world_run guarded_world_Config)).
Defined.

(** X9 on the script required as a module. *)
Lemma listen_when_asked_witness :
  run (startup (env false)) (fresh (disk "guarded") {["sockjs"]}) = (Ok tt, library_world)
  ∧ globals library_world !! "Config" = Some (VConfig guarded)
  ∧ added (deliver_all (env false) [] library_world)
      (snd (deliver (env false) (Listen (Given "8000") (Given "0.0.0.0") Undefined)
              (deliver_all (env false) [] library_world)))
    = [ECall (SocketsListen (Given "8000") (Given "0.0.0.0") Undefined)].
Proof.
  split; [exact library_world_run|]. split; [exact library_world_Config|].
  exact (proj2 (proj2 (listen_when_asked (env false) _ _ _ _ [] (Given "8000")
                         (Given "0.0.0.0") Undefined
                         library_world_run library_world_Config))).
Defined.


(** X13 on the plain configuration. *)
Lemma no_guard_no_handlers_witness :
  run (startup (env true)) (fresh (disk "plain") {["sockjs"]}) = (Ok tt, plain_world)
  ∧ globals plain_world !! "Config" = Some (VConfig plain)
  ∧ crashguard plain = false
  ∧ deliver (env true) (Uncaught out_of_memory) (deliver_all (env true) [] plain_world)
    = (NoListener, deliver_all (env true) [] plain_world).
Proof.
  assert (crashguard plain = false) as H3 by reflexivity.
  split; [exact plain_world_run|]. split; [exact plain_world_Config|].
  split; [exact H3|].
  exact (proj1 (no_guard_no_handlers (env true) _ _ _ _ [] out_of_memory 1
                  plain_world_run plain_world_Config H3)).
Defined.
